(** * MoodRhythm: the keystroke-timing recorder and the pattern analyzer

    A shallow embedding of [src/typing_logger.py] (class [TypingLogger]) and
    [src/mood_analyzer.py] (class [MoodAnalyzer]), and the properties of
    these two modules.

    Conventions of the embedding.
    - Python floats and ints that hold measurements (timestamps in
      milliseconds, intervals, words per minute, ratios) are exact rationals
      [Q]; results are compared with [==].  Counters and scores that the
      code keeps as [int] are [Z].
    - [time.time()] and [uuid.uuid4()] are inputs of the operation that
      reads them.
    - A Python exception is an explicit [Raises] outcome.
    - [numpy.std] is a parameter of the analyzer (its value is irrational in
      general); [numpy.mean] is the exact mean. *)

From Stdlib Require Import ZArith QArith Qround Qminmax List String Bool Lia Lqa.
From Stdlib Require Import DecimalString Sorted.
Import ListNotations.

Local Open Scope Z_scope.

(** ** Python built-ins used by the two modules *)

Definition Qltb (x y : Q) : bool := negb (Qle_bool y x).

(** [max(a, b)]: the first argument unless the second is strictly larger. *)
Definition py_max (a b : Q) : Q := if Qltb a b then b else a.

(** [min(a, b)]: the first argument unless the second is strictly smaller. *)
Definition py_min (a b : Q) : Q := if Qltb b a then b else a.

(** [int(x)]: truncation towards zero. *)
Definition py_int (x : Q) : Z := Z.quot (Qnum x) (Zpos (Qden x)).

(** Rounding to the nearest integer, ties to the even one. *)
Definition round_half_even (x : Q) : Z :=
  let f := Qfloor x in
  let r := (x - inject_Z f)%Q in
  if Qltb r (1 # 2) then f
  else if Qltb (1 # 2) r then f + 1
  else if Z.even f then f else f + 1.

(** [round(x, ndigits)]. *)
Definition py_round (x : Q) (ndigits : nat) : Q :=
  let scale := inject_Z (10 ^ Z.of_nat ndigits) in
  (inject_Z (round_half_even (x * scale)) / scale)%Q.

(** [len(l)] as a Python int. *)
Definition len {A : Type} (l : list A) : Z := Z.of_nat (List.length l).

(** [sum(1 for e in l if p(e))]. *)
Definition count {A : Type} (p : A -> bool) (l : list A) : Z :=
  len (filter p l).

Definition Qsum (l : list Q) : Q := fold_left Qplus l 0%Q.

(** [numpy.mean] of a non-empty list. *)
Definition np_mean (l : list Q) : Q := (Qsum l / inject_Z (len l))%Q.

(** ** Exceptions *)

Inductive exn : Type :=
| IndexError
| TypeError
| ObserverError (msg : string).

Inductive outcome (A : Type) : Type :=
| Returns (a : A)
| Raises (e : exn).
Arguments Returns {A} a.
Arguments Raises {A} e.

Definition bind {A B : Type} (c : outcome A) (k : A -> outcome B) : outcome B :=
  match c with
  | Returns a => k a
  | Raises e => Raises e
  end.

Notation "x <- c ;; k" := (bind c (fun x => k))
  (at level 61, c at next level, right associativity).

(** ** The timing event

    The dictionary that [TypingLogger._on_press] builds and that the
    analyzer reads. [interval = None] is Python's [None]. *)

Record Event : Type := Build_Event {
  timestamp : Q;
  interval : option Q;
  is_pause : bool;
  is_burst : bool;
  session_id : option string
}.

(** [[e['interval'] for e in events if e.get('interval') is not None]] *)
Fixpoint defined_intervals (events : list Event) : list Q :=
  match events with
  | [] => []
  | e :: rest =>
      match interval e with
      | Some i => i :: defined_intervals rest
      | None => defined_intervals rest
      end
  end.

(** [l[-1]] *)
Definition py_last {A : Type} (l : list A) : outcome A :=
  match rev l with
  | [] => Raises IndexError
  | x :: _ => Returns x
  end.

(** [l[0]] *)
Definition py_first {A : Type} (l : list A) : outcome A :=
  match l with
  | [] => Raises IndexError
  | x :: _ => Returns x
  end.

(** Normalisation of a slice bound against a list of length [n]. *)
Definition slice_bound (n k : Z) : Z :=
  if k <? 0 then Z.max 0 (k + n) else Z.min k n.

(** [l[i:j]] *)
Definition py_slice {A : Type} (l : list A) (i j : Z) : list A :=
  let a := slice_bound (len l) i in
  let b := slice_bound (len l) j in
  firstn (Z.to_nat (b - a)) (skipn (Z.to_nat a) l).

(** [range(start, stop, step)] for a positive [step]. *)
Definition py_range (start stop step : Z) : list Z :=
  map (fun k => start + Z.of_nat k * step)
      (seq 0 (Z.to_nat ((stop - start + step - 1) / step))).

(** Resolution of a subscript [k] against a list of length [n]: negative
    subscripts count from the end, anything else out of range raises. *)
Definition py_index (n k : Z) : outcome nat :=
  if (0 <=? k) && (k <? n) then Returns (Z.to_nat k)
  else if (- n <=? k) && (k <? 0) then Returns (Z.to_nat (k + n))
  else Raises IndexError.

(** In-place assignment [l[i] = x] at a resolved position. *)
Fixpoint set_nth {A : Type} (i : nat) (x : A) (l : list A) : list A :=
  match l, i with
  | [], _ => []
  | _ :: rest, O => x :: rest
  | y :: rest, S i' => y :: set_nth i' x rest
  end.

(** [str(n)] for an int. *)
Definition str (n : Z) : string := NilZero.string_of_int (Z.to_int n).

(** ** The pattern analyzer: [MoodAnalyzer] *)

Module MoodAnalyzer.

Inductive Mood : Type :=
| MOOD_FOCUSED
| MOOD_STRESSED
| MOOD_RELAXED
| MOOD_FATIGUED
| MOOD_NEUTRAL.

Definition LOW_WPM_THRESHOLD : Q := 30.
Definition HIGH_BURST_RATIO : Q := 0.3.
Definition HIGH_PAUSE_RATIO : Q := 0.1.
Definition RHYTHM_CONSISTENCY_THRESHOLD : Q := 0.3.

(** [if wpm:] is taken when [wpm] is neither [None] nor zero. *)
Definition truthy (wpm : option Q) : option Q :=
  match wpm with
  | Some w => if Qeq_bool w 0 then None else Some w
  | None => None
  end.

(** The result of [detect_mood]: keys ['mood'], ['confidence'] and
    ['indicators'] (a dictionary, kept in insertion order; [{}] is [[]]). *)
Module MoodResult.
Record t : Type := {
  mood : Mood;
  confidence : Q;
  indicators : list (string * Q)
}.
End MoodResult.

(** The result of [analyze_session]. The dictionary returned for an empty
    list has no ['mood_confidence'] key. *)
Module Analysis.
Record t : Type := {
  mood : Mood;
  mood_confidence : option Q;
  energy_score : Z;
  wpm : Q;
  total_keypresses : Z;
  duration_seconds : Q;
  indicators : list (string * Q)
}.
End Analysis.

(** One element of the list returned by [calculate_mood_timeline]. *)
Module Point.
Record t : Type := {
  timestamp : Q;
  mood : Mood;
  energy_score : Z;
  wpm : Q
}.
End Point.

(** One element of [hourly_stats]. *)
Module HourlyStat.
Record t : Type := {
  day_of_week : Z;
  hour : Z;
  keypress_count : Z
}.
End HourlyStat.

(** The result of [get_weekly_rhythm]; [None] is Python's [None]. *)
Module Rhythm.
Record t : Type := {
  peak_hour : option Z;
  peak_day : option Z;
  activity_matrix : list (list Z);
  insights : list string
}.
End Rhythm.

(** [calculate_energy_score]. Past the first guard [events] is not empty,
    so the two [... if events else 0] take their first alternative. *)
Definition calculate_energy_score (events : list Event) (wpm : option Q) : Z :=
  match events with
  | [] => 50
  | _ :: _ =>
      let intervals := defined_intervals events in
      match intervals with
      | [] => 50
      | _ :: _ =>
          let burst_count := count is_burst events in
          let pause_count := count is_pause events in
          let avg_interval := np_mean intervals in
          let speed_score := py_max 0 (py_min 100 (100 - avg_interval / 10)) in
          let burst_ratio := (inject_Z burst_count / inject_Z (len events))%Q in
          let burst_score := py_min 100 (burst_ratio * 300) in
          let pause_ratio := (inject_Z pause_count / inject_Z (len events))%Q in
          let pause_penalty := (pause_ratio * 50)%Q in
          let energy := (speed_score * 0.4 + burst_score * 0.4 - pause_penalty)%Q in
          let energy :=
            match truthy wpm with
            | Some w =>
                let wpm_factor := py_min 1.5 (w / 40) in
                (energy * wpm_factor)%Q
            | None => energy
            end in
          Z.max 0 (Z.min 100 (py_int energy))
      end
  end.

Section Analyzer.

(** [numpy.std], the population standard deviation. *)
Variable np_std : list Q -> Q.

Definition insufficient_data : MoodResult.t :=
  {| MoodResult.mood := MOOD_NEUTRAL;
     MoodResult.confidence := 0.0;
     MoodResult.indicators := [] |}.

Definition detect_mood (events : list Event) (wpm : option Q) : MoodResult.t :=
  match events with
  | [] => insufficient_data
  | first :: _ =>
      if len events <? 10 then insufficient_data
      else
        let intervals := defined_intervals events in
        if len intervals <? 5 then insufficient_data
        else
          let avg_interval := np_mean intervals in
          let std_interval := np_std intervals in
          let cv := if Qltb 0 avg_interval
                    then (std_interval / avg_interval)%Q else 0%Q in
          let burst_count := count is_burst events in
          let pause_count := count is_pause events in
          let burst_ratio := (inject_Z burst_count / inject_Z (len events))%Q in
          let pause_ratio := (inject_Z pause_count / inject_Z (len events))%Q in
          let wpm :=
            match wpm with
            | Some w => w
            | None =>
                let session_duration :=
                  ((timestamp (last events first) - timestamp first)
                   / 1000 / 60)%Q in
                if Qltb 0 session_duration
                then (inject_Z (len events) / 5
                      / py_max session_duration 0.01)%Q
                else 0%Q
            end in
          let indicators :=
            [ ("avg_interval"%string, py_round avg_interval 1);
              ("rhythm_consistency"%string, py_round (1 - py_min cv 1) 2);
              ("burst_ratio"%string, py_round burst_ratio 3);
              ("pause_ratio"%string, py_round pause_ratio 3);
              ("wpm"%string, py_round wpm 1) ] in
          let '(mood, confidence) :=
            if Qltb cv RHYTHM_CONSISTENCY_THRESHOLD && Qltb 35 wpm
            then (MOOD_FOCUSED, (0.7 + 0.3 * (1 - cv))%Q)
            else if Qltb HIGH_BURST_RATIO burst_ratio && Qltb 0.5 cv
            then (MOOD_STRESSED, (0.6 + burst_ratio * 0.4)%Q)
            else if Qltb wpm LOW_WPM_THRESHOLD
                    && Qltb pause_ratio HIGH_PAUSE_RATIO
            then (MOOD_RELAXED, (0.6 + 0.4 * (1 - wpm / 30))%Q)
            else if Qltb HIGH_PAUSE_RATIO pause_ratio
            then (MOOD_FATIGUED, (0.5 + pause_ratio * 2)%Q)
            else (MOOD_NEUTRAL, 0.5%Q) in
          {| MoodResult.mood := mood;
             MoodResult.confidence := py_min confidence 1.0;
             MoodResult.indicators := indicators |}
  end.

Definition analyze_session (events : list Event) : Analysis.t :=
  match events with
  | [] =>
      {| Analysis.mood := MOOD_NEUTRAL;
         Analysis.mood_confidence := None;
         Analysis.energy_score := 50;
         Analysis.wpm := 0;
         Analysis.total_keypresses := 0;
         Analysis.duration_seconds := 0;
         Analysis.indicators := [] |}
  | first :: _ =>
      let '(duration_seconds, duration_minutes) :=
        if 2 <=? len events then
          let duration_ms := (timestamp (last events first) - timestamp first)%Q in
          let duration_seconds := (duration_ms / 1000)%Q in
          (duration_seconds, (duration_seconds / 60)%Q)
        else (0%Q, 0%Q) in
      let wpm := (inject_Z (len events) / 5 / py_max duration_minutes 0.01)%Q in
      let mood_result := detect_mood events (Some wpm) in
      let energy_score := calculate_energy_score events (Some wpm) in
      {| Analysis.mood := MoodResult.mood mood_result;
         Analysis.mood_confidence := Some (MoodResult.confidence mood_result);
         Analysis.energy_score := energy_score;
         Analysis.wpm := py_round wpm 1;
         Analysis.total_keypresses := len events;
         Analysis.duration_seconds := py_round duration_seconds 1;
         Analysis.indicators := MoodResult.indicators mood_result |}
  end.

(** The dictionary appended to the timeline for one analysed window. *)
Definition point_of (ts : Q) (analysis : Analysis.t) : Point.t :=
  {| Point.timestamp := ts;
     Point.mood := Analysis.mood analysis;
     Point.energy_score := Analysis.energy_score analysis;
     Point.wpm := Analysis.wpm analysis |}.

(** The body of the [for] loop of [calculate_mood_timeline]. *)
Definition timeline_step (events : list Event) (window_size i : Z)
  : outcome Point.t :=
  let window := py_slice events i (i + window_size) in
  let analysis := analyze_session window in
  e <- py_last window ;;
  Returns (point_of (timestamp e) analysis).

Fixpoint timeline_loop (events : list Event) (window_size : Z)
  (indices : list Z) (timeline : list Point.t) : outcome (list Point.t) :=
  match indices with
  | [] => Returns timeline
  | i :: rest =>
      p <- timeline_step events window_size i ;;
      timeline_loop events window_size rest (timeline ++ [p])
  end.

Definition calculate_mood_timeline (events : list Event) (window_size : Z)
  : outcome (list Point.t) :=
  if len events <? window_size then
    let analysis := analyze_session events in
    let ts := match rev events with
              | e :: _ => timestamp e
              | [] => 0%Q
              end in
    Returns [point_of ts analysis]
  else
    let step := Z.max 1 (window_size / 2) in
    timeline_loop events window_size
      (py_range 0 (len events - window_size + 1) step) [].

End Analyzer.

(** The default [window_size]. *)
Definition default_window_size : Z := 30.

(** [[[0 for _ in range(24)] for _ in range(7)]] *)
Definition empty_matrix : list (list Z) := repeat (repeat 0 24%nat) 7%nat.

(** [activity_matrix[day][hour]] at positions inside the matrix. *)
Definition cell (m : list (list Z)) (day hour : nat) : Z :=
  nth hour (nth day m []) 0.

(** [activity_matrix[day][hour] = stat['keypress_count']] *)
Definition record_stat (m : list (list Z)) (stat : HourlyStat.t)
  : outcome (list (list Z)) :=
  d <- py_index (len m) (HourlyStat.day_of_week stat) ;;
  let row := nth d m [] in
  h <- py_index (len row) (HourlyStat.hour stat) ;;
  Returns (set_nth d (set_nth h (HourlyStat.keypress_count stat) row) m).

Fixpoint fill_matrix (m : list (list Z)) (hourly_stats : list HourlyStat.t)
  : outcome (list (list Z)) :=
  match hourly_stats with
  | [] => Returns m
  | stat :: rest =>
      m' <- record_stat m stat ;;
      fill_matrix m' rest
  end.

(** The state of the peak search: [max_activity], [peak_hour], [peak_day]. *)
Record Peak : Type := {
  max_activity : Z;
  peak_hour : Z;
  peak_day : Z
}.

Definition peak_visit (m : list (list Z)) (day hour : nat) (p : Peak) : Peak :=
  if max_activity p <? cell m day hour
  then {| max_activity := cell m day hour;
          peak_hour := Z.of_nat hour;
          peak_day := Z.of_nat day |}
  else p.

(** The two nested [for] loops over [range(7)] and [range(24)]. *)
Definition find_peak (m : list (list Z)) : Peak :=
  fold_left
    (fun p day => fold_left (fun p hour => peak_visit m day hour p) (seq 0 24) p)
    (seq 0 7)
    {| max_activity := 0; peak_hour := 0; peak_day := 0 |}.

Definition day_names : list string :=
  [ "Sunday"; "Monday"; "Tuesday"; "Wednesday"; "Thursday"; "Friday";
    "Saturday" ]%string.

Definition Zsum (l : list Z) : Z := fold_left Z.add l 0.

(** [max(l)] of a non-empty list of ints. *)
Definition Zlist_max (l : list Z) : Z :=
  match l with
  | [] => 0
  | x :: rest => fold_left Z.max rest x
  end.

(** [l.index(x)]: the first position holding [x]. *)
Fixpoint index_of (x : Z) (l : list Z) : nat :=
  match l with
  | [] => O
  | y :: rest => if y =? x then O else S (index_of x rest)
  end.

(** [any(l)] on ints: some element is non-zero. *)
Definition any (l : list Z) : bool := existsb (fun t => negb (t =? 0)) l.

Definition get_weekly_rhythm (hourly_stats : list HourlyStat.t)
  : outcome Rhythm.t :=
  match hourly_stats with
  | [] =>
      Returns {| Rhythm.peak_hour := None;
                 Rhythm.peak_day := None;
                 Rhythm.activity_matrix := [];
                 Rhythm.insights := [] |}
  | _ :: _ =>
      activity_matrix <- fill_matrix empty_matrix hourly_stats ;;
      let p := find_peak activity_matrix in
      let insights :=
        if 0 <? max_activity p
        then [ ("Peak activity: " ++ nth (Z.to_nat (peak_day p)) day_names ""
                ++ " at " ++ str (peak_hour p) ++ ":00")%string ]
        else [] in
      let daily_totals := map Zsum activity_matrix in
      let insights :=
        if any daily_totals
        then
          let most_active_day := index_of (Zlist_max daily_totals) daily_totals in
          insights ++ [ ("Most active day: "
                         ++ nth most_active_day day_names "")%string ]
        else insights in
      Returns {| Rhythm.peak_hour := Some (peak_hour p);
                 Rhythm.peak_day := Some (peak_day p);
                 Rhythm.activity_matrix := activity_matrix;
                 Rhythm.insights := insights |}
  end.

End MoodAnalyzer.

(** ** The capture recorder: [TypingLogger] *)

Module TypingLogger.

Definition PAUSE_THRESHOLD : Q := 2000.
Definition BURST_THRESHOLD : Q := 50.

(** The attributes of a [TypingLogger]. The pynput listener is the
    environment that calls [_on_press]; [is_running] records whether it is
    started. An observer is a function of the finished event that returns or
    raises. *)
Record Logger : Type := {
  is_running : bool;
  session_id : option string;
  last_keypress_time : option Q;
  keypress_count : Z;
  session_start_time : option Q;
  on_event_callback : option (Event -> outcome unit);
  events : list Event
}.

(** [__init__] *)
Definition init (on_event_callback : option (Event -> outcome unit)) : Logger :=
  {| is_running := false;
     session_id := None;
     last_keypress_time := None;
     keypress_count := 0;
     session_start_time := None;
     on_event_callback := on_event_callback;
     events := [] |}.

(** [_on_press]; [now] is [time.time()] in seconds, so that
    [current_time] is in milliseconds. The state is the recorder after the
    call, whether it returned or raised. *)
Definition _on_press (self : Logger) (now : Q) : Logger * outcome unit :=
  let current_time := (now * 1000)%Q in
  let '(interval, is_pause, is_burst) :=
    match last_keypress_time self with
    | Some last =>
        let interval := (current_time - last)%Q in
        (Some interval, Qltb PAUSE_THRESHOLD interval,
         Qltb interval BURST_THRESHOLD)
    | None => (None, false, false)
    end in
  let event :=
    Build_Event current_time interval is_pause is_burst (session_id self) in
  let self' :=
    {| is_running := is_running self;
       session_id := session_id self;
       last_keypress_time := Some current_time;
       keypress_count := keypress_count self + 1;
       session_start_time := session_start_time self;
       on_event_callback := on_event_callback self;
       events := events self ++ [event] |} in
  match on_event_callback self with
  | Some callback => (self', callback event)
  | None => (self', Returns tt)
  end.

(** [start]; [uuid] is the string of the fresh [uuid.uuid4()]. *)
Definition start (self : Logger) (now : Q) (uuid : string)
  : Logger * option string :=
  if is_running self then (self, session_id self)
  else
    let self' :=
      {| is_running := true;
         session_id := Some uuid;
         last_keypress_time := None;
         keypress_count := 0;
         session_start_time := Some (now * 1000)%Q;
         on_event_callback := on_event_callback self;
         events := [] |} in
    (self', session_id self').

(** The session summary returned by [stop]. *)
Module Summary.
Record t : Type := {
  session_id : option string;
  duration_seconds : Q;
  total_keypresses : Z;
  events : list Event
}.
End Summary.

(** [stop]; [None] is the empty dictionary returned when not running. *)
Definition stop (self : Logger) (now : Q)
  : Logger * outcome (option Summary.t) :=
  if negb (is_running self) then (self, Returns None)
  else
    let self' :=
      {| is_running := false;
         session_id := session_id self;
         last_keypress_time := last_keypress_time self;
         keypress_count := keypress_count self;
         session_start_time := session_start_time self;
         on_event_callback := on_event_callback self;
         events := events self |} in
    match session_start_time self with
    | None => (self', Raises TypeError)
    | Some started =>
        let session_duration := ((now * 1000 - started) / 1000)%Q in
        (self', Returns (Some
           {| Summary.session_id := session_id self;
              Summary.duration_seconds := session_duration;
              Summary.total_keypresses := keypress_count self;
              Summary.events := events self |}))
    end.

(** The dictionary returned by [get_current_stats]. *)
Module Stats.
Record t : Type := {
  wpm : Q;
  avg_interval : Q;
  pause_count : Z;
  burst_count : Z;
  keypress_count : Z;
  session_duration : Q
}.
End Stats.

Definition zero_stats : Stats.t :=
  {| Stats.wpm := 0;
     Stats.avg_interval := 0;
     Stats.pause_count := 0;
     Stats.burst_count := 0;
     Stats.keypress_count := 0;
     Stats.session_duration := 0 |}.

Definition get_current_stats (self : Logger) (now : Q) : outcome Stats.t :=
  if negb (is_running self) || (match events self with [] => true | _ => false end)
  then Returns zero_stats
  else
    match session_start_time self with
    | None => Raises TypeError
    | Some started =>
        let session_duration := ((now * 1000 - started) / 1000 / 60)%Q in
        let wpm := (inject_Z (keypress_count self) / 5
                    / py_max session_duration 0.01)%Q in
        let intervals := defined_intervals (events self) in
        let avg_interval :=
          match intervals with
          | [] => 0%Q
          | _ :: _ => (Qsum intervals / inject_Z (len intervals))%Q
          end in
        let pause_count := count is_pause (events self) in
        let burst_count := count is_burst (events self) in
        Returns {| Stats.wpm := py_round wpm 1;
                   Stats.avg_interval := py_round avg_interval 1;
                   Stats.pause_count := pause_count;
                   Stats.burst_count := burst_count;
                   Stats.keypress_count := keypress_count self;
                   Stats.session_duration := py_round (session_duration * 60) 1 |}
    end.

Definition get_events (self : Logger) : list Event := events self.

(** The calls that reach a recorder, and the recorder after a sequence of
    them. *)
Inductive call : Type :=
| CallStart (now : Q) (uuid : string)
| CallPress (now : Q)
| CallStop (now : Q).

Definition step (self : Logger) (c : call) : Logger :=
  match c with
  | CallStart now uuid => fst (start self now uuid)
  | CallPress now => fst (_on_press self now)
  | CallStop now => fst (stop self now)
  end.

Definition run (self : Logger) (calls : list call) : Logger :=
  fold_left step calls self.

End TypingLogger.

(** ** Vocabulary of the properties *)

Import MoodAnalyzer.

(** An executable instance of the [numpy.std] parameter, for running the
    analyzer on concrete inputs: the population standard deviation with the
    square root taken to nine decimal places (exact on a constant list). *)
Definition variance (l : list Q) : Q :=
  let m := np_mean l in
  np_mean (map (fun x => ((x - m) * (x - m))%Q) l).

Definition std9 (l : list Q) : Q :=
  (inject_Z (Z.sqrt (Qfloor (variance l * inject_Z (10 ^ 18))))
   / inject_Z (10 ^ 9))%Q.

(** The data-sufficiency thresholds of [detect_mood]. *)
Definition sufficient (events : list Event) : Prop :=
  10 <= len events /\ 5 <= len (defined_intervals events).

(** The four metrics that the rules of [detect_mood] read. *)
Record Metrics : Type := {
  cv : Q;
  burst_ratio : Q;
  pause_ratio : Q;
  wpm_used : Q
}.

(** Span from the first to the last timestamp, in minutes. *)
Definition span_minutes (events : list Event) : Q :=
  match events with
  | [] => 0%Q
  | first :: _ =>
      ((timestamp (last events first) - timestamp first) / 1000 / 60)%Q
  end.

(** The estimate [(n/5) / max(span_minutes, 0.01)]. *)
Definition estimated_wpm (events : list Event) : Q :=
  (inject_Z (len events) / 5 / py_max (span_minutes events) 0.01)%Q.

(** The wpm that [detect_mood] falls back on when none is supplied. *)
Definition fallback_wpm (events : list Event) : Q :=
  if Qltb 0 (span_minutes events) then estimated_wpm events else 0%Q.

Definition wpm_or_fallback (events : list Event) (wpm : option Q) : Q :=
  match wpm with
  | Some w => w
  | None => fallback_wpm events
  end.

(** In the data model a pause is an interval above the threshold, so an
    event marked as a pause has an interval. *)
Definition pauses_timed (events : list Event) : Prop :=
  Forall (fun e => is_pause e = true -> interval e <> None) events.

Definition metrics_of (np_std : list Q -> Q) (events : list Event)
  (wpm : Q) : Metrics :=
  let intervals := defined_intervals events in
  let avg_interval := np_mean intervals in
  {| cv := if Qltb 0 avg_interval
           then (np_std intervals / avg_interval)%Q else 0%Q;
     burst_ratio := (inject_Z (count is_burst events) / inject_Z (len events))%Q;
     pause_ratio := (inject_Z (count is_pause events) / inject_Z (len events))%Q;
     wpm_used := wpm |}.

(** The classifier as an ordered list of (predicate, mood, confidence)
    rules, evaluated in sequence; the first rule whose predicate holds
    decides. *)
Definition rule : Type := (Metrics -> bool) * Mood * (Metrics -> Q).

Definition rule_focused : rule :=
  (fun m => Qltb (cv m) 0.3 && Qltb 35 (wpm_used m),
   MOOD_FOCUSED,
   fun m => (0.7 + 0.3 * (1 - cv m))%Q).

Definition rule_stressed : rule :=
  (fun m => Qltb 0.3 (burst_ratio m) && Qltb 0.5 (cv m),
   MOOD_STRESSED,
   fun m => (0.6 + burst_ratio m * 0.4)%Q).

Definition rule_relaxed : rule :=
  (fun m => Qltb (wpm_used m) 30 && Qltb (pause_ratio m) 0.1,
   MOOD_RELAXED,
   fun m => (0.6 + 0.4 * (1 - wpm_used m / 30))%Q).

Definition rule_fatigued : rule :=
  (fun m => Qltb 0.1 (pause_ratio m),
   MOOD_FATIGUED,
   fun m => (0.5 + pause_ratio m * 2)%Q).

Definition rules : list rule :=
  [rule_focused; rule_stressed; rule_relaxed; rule_fatigued].

Definition fires (r : rule) (m : Metrics) : bool := fst (fst r) m.

Fixpoint first_match (rs : list rule) (m : Metrics) : Mood * Q :=
  match rs with
  | [] => (MOOD_NEUTRAL, 0.5%Q)
  | r :: rest =>
      if fires r m then (snd (fst r), snd r m) else first_match rest m
  end.

(** [d.get(key)] on a dictionary kept as an association list. *)
Fixpoint dict_get (key : string) (d : list (string * Q)) : option Q :=
  match d with
  | [] => None
  | (k, v) :: rest => if String.eqb k key then Some v else dict_get key rest
  end.

(** Test events. *)
Definition timed (t : Z) (i : Q) (pause burst : bool) : Event :=
  Build_Event (inject_Z t) (Some i) pause burst None.

Definition untimed (t : Z) : Event :=
  Build_Event (inject_Z t) None false false None.

(** Twenty events one second apart, fifteen of them pauses. *)
Definition fifteen_pauses : list Event :=
  map (fun k => timed (Z.of_nat k * 1000) 2500 true false) (seq 0 15)
  ++ map (fun k => timed (Z.of_nat k * 1000) 100 false false) (seq 15 5).

(** Ten events that carry the same timestamp. *)
Definition zero_span : list Event :=
  map (fun _ => timed 0 100 false false) (seq 0 10).

(** The invariant of a timing event: never both a pause and a burst, and
    neither of them without an interval. *)
Definition exclusive (e : Event) : Prop :=
  is_pause e && is_burst e = false /\
  (interval e = None -> is_pause e = false /\ is_burst e = false).

(** An observer that always fails. *)
Definition failing_observer : Event -> outcome unit :=
  fun _ => Raises (ObserverError "observer failed").

(** A recorder started at time 0 that has seen one keypress, one second in. *)
Definition one_keypress (callback : option (Event -> outcome unit))
  : TypingLogger.Logger :=
  TypingLogger.run (TypingLogger.init callback)
    [TypingLogger.CallStart 0 "session"; TypingLogger.CallPress 1].

(** An hourly record. *)
Definition stat (day hour n : Z) : HourlyStat.t :=
  {| HourlyStat.day_of_week := day;
     HourlyStat.hour := hour;
     HourlyStat.keypress_count := n |}.

(** The ranges of the data model: [day_of_week] in 0..6, [hour] in 0..23. *)
Definition in_range (s : HourlyStat.t) : Prop :=
  0 <= HourlyStat.day_of_week s < 7 /\ 0 <= HourlyStat.hour s < 24.

Definition at_cell (d h : nat) (s : HourlyStat.t) : bool :=
  (HourlyStat.day_of_week s =? Z.of_nat d) && (HourlyStat.hour s =? Z.of_nat h).

(** The last record of the list, in list order, for a (day, hour) pair. *)
Definition last_record (d h : nat) (hourly_stats : list HourlyStat.t)
  : option HourlyStat.t :=
  find (at_cell d h) (rev hourly_stats).

Definition no_activity (hourly_stats : list HourlyStat.t) : Prop :=
  Forall (fun s => HourlyStat.keypress_count s = 0) hourly_stats.

(** A matrix of 7 rows of 24 cells. *)
Definition shaped (m : list (list Z)) : Prop :=
  List.length m = 7%nat /\ Forall (fun row => List.length row = 24%nat) m.

(** The result on a non-empty list without activity. *)
Definition idle_rhythm : Rhythm.t :=
  {| Rhythm.peak_hour := Some 0;
     Rhythm.peak_day := Some 0;
     Rhythm.activity_matrix := empty_matrix;
     Rhythm.insights := [] |}.

(** Steady typing: [n] events 100 ms apart. *)
Definition steady (n : nat) : list Event :=
  map (fun k => timed (Z.of_nat k * 100) 100 false false) (seq 0 n).

(** *** Recorder states *)

(** The timestamp of the last event of a buffer, [prev] when it is empty. *)
Definition last_timestamp (prev : option Q) (events : list Event) : option Q :=
  fold_left (fun _ e => Some (timestamp e)) events prev.

(** Every event's interval is the distance from the timestamp before it;
    an event with no timestamp before it ([prev = None] at the head) has
    none. *)
Fixpoint chained (prev : option Q) (events : list Event) : Prop :=
  match events with
  | [] => True
  | e :: rest =>
      interval e = option_map (fun p => (timestamp e - p)%Q) prev /\
      chained (Some (timestamp e)) rest
  end.

(** The flags of an event are the threshold tests on its interval. *)
Definition flags_by_threshold (e : Event) : Prop :=
  is_pause e = match interval e with
               | Some i => Qltb TypingLogger.PAUSE_THRESHOLD i
               | None => false
               end /\
  is_burst e = match interval e with
               | Some i => Qltb i TypingLogger.BURST_THRESHOLD
               | None => false
               end.

(** What every recorder keeps between calls. *)
Record consistent (self : TypingLogger.Logger) : Prop := {
  counter_is_length :
    TypingLogger.keypress_count self = len (TypingLogger.events self);
  last_time_is_last :
    TypingLogger.last_keypress_time self
    = last_timestamp None (TypingLogger.events self);
  intervals_chained : chained None (TypingLogger.events self);
  flags_thresholds : Forall flags_by_threshold (TypingLogger.events self);
  events_tagged :
    Forall (fun e => session_id e = TypingLogger.session_id self)
      (TypingLogger.events self);
  running_started :
    TypingLogger.is_running self = true ->
    TypingLogger.session_start_time self <> None /\
    TypingLogger.session_id self <> None
}.

(** The recorders that a program can hold: a fresh one after any sequence
    of start, keypress and stop calls. *)
Definition reachable (self : TypingLogger.Logger) : Prop :=
  exists callback calls,
    self = TypingLogger.run (TypingLogger.init callback) calls.

(** A recorder started at 0 s with keypresses at 1 s, 1.01 s and 4 s. *)
Definition three_keypresses : TypingLogger.Logger :=
  TypingLogger.run (TypingLogger.init None)
    [TypingLogger.CallStart 0 "session"; TypingLogger.CallPress 1;
     TypingLogger.CallPress 1.01; TypingLogger.CallPress 4].

(** *** Weekly rhythm *)

(** The subscripts that Python accepts for a 7 x 24 matrix: negative ones
    count from the end. *)
Definition subscripts_ok (s : HourlyStat.t) : Prop :=
  -7 <= HourlyStat.day_of_week s < 7 /\ -24 <= HourlyStat.hour s < 24.

(** The cell that a record's subscripts resolve to. *)
Definition wraps_to (d h : nat) (s : HourlyStat.t) : bool :=
  (HourlyStat.day_of_week s mod 7 =? Z.of_nat d)
  && (HourlyStat.hour s mod 24 =? Z.of_nat h).

(** The order in which the peak search visits the cells: day by day, and
    within a day hour by hour. *)
Definition scan_order : list (nat * nat) := list_prod (seq 0 7) (seq 0 24).

Definition visit (m : list (list Z)) (p : Peak) (q : nat * nat) : Peak :=
  peak_visit m (fst q) (snd q) p.

Definition no_peak : Peak :=
  {| max_activity := 0; peak_hour := 0; peak_day := 0 |}.

(** A recorder started at 0 s with twelve keypresses 200 ms apart. *)
Definition twelve_keypresses : TypingLogger.Logger :=
  TypingLogger.run (TypingLogger.init None)
    (TypingLogger.CallStart 0 "session"
     :: map (fun k => TypingLogger.CallPress (inject_Z (Z.of_nat k) * 0.2)%Q)
          (seq 1 12)).

(** ** Properties of the analyzer *)

Lemma Qltb_lt (x y : Q) : Qltb x y = true <-> (x < y)%Q.
Proof.
  unfold Qltb. rewrite negb_true_iff. split.
  - intros H. apply Qnot_le_lt. intros Hle.
    apply Qle_bool_iff in Hle. congruence.
  - intros H. destruct (Qle_bool y x) eqn:E; [| reflexivity].
    apply Qle_bool_iff in E. apply Qlt_not_le in H. contradiction.
Qed.

Lemma Qltb_ge (x y : Q) : Qltb x y = false <-> (y <= x)%Q.
Proof.
  unfold Qltb. rewrite negb_false_iff. apply Qle_bool_iff.
Qed.

Lemma len_nonneg {A : Type} (l : list A) : 0 <= len l.
Proof. unfold len. lia. Qed.

Lemma defined_intervals_none (events : list Event) :
  Forall (fun e => interval e = None) events -> defined_intervals events = [].
Proof.
  induction 1 as [| e rest He _ IH]; simpl.
  - reflexivity.
  - rewrite He. exact IH.
Qed.

(** C1. [calculate_energy_score] returns an integer between 0 and 100 on
    every input; it returns exactly 50 on the empty list and on every list
    in which no event has a defined interval. *)
Theorem energy_score_range_and_neutral (events : list Event) (wpm : option Q) :
  0 <= calculate_energy_score events wpm <= 100 /\
  (events = [] -> calculate_energy_score events wpm = 50) /\
  (events <> [] -> Forall (fun e => interval e = None) events ->
   calculate_energy_score events wpm = 50).
Proof.
  split; [| split].
  - unfold calculate_energy_score.
    destruct events as [| e rest]; [lia |].
    destruct (defined_intervals (e :: rest)); [lia |].
    cbv zeta. lia.
  - intros ->. reflexivity.
  - intros _ Hnone. unfold calculate_energy_score.
    destruct events as [| e rest]; [reflexivity |].
    rewrite (defined_intervals_none _ Hnone). reflexivity.
Qed.

Lemma energy_score_range_and_neutral_witness :
  calculate_energy_score [untimed 0; untimed 700] (Some 40%Q) = 50.
Proof.
  apply (proj2 (proj2
    (energy_score_range_and_neutral [untimed 0; untimed 700] (Some 40%Q)))).
  - discriminate.
  - repeat constructor.
Defined.

(** The score is not constant: steady typing at 100 ms scores 36 without a
    wpm and saturates at 54 with a high one; bursts raise it. *)
Example energy_score_steady :
  calculate_energy_score
    (map (fun k => timed (Z.of_nat k * 100) 100 false false) (seq 0 50)) None
  = 36.
Proof. vm_compute. reflexivity. Qed.

Example energy_score_bursts :
  calculate_energy_score
    (map (fun k => timed (Z.of_nat k * 10) 10 false true) (seq 0 50))
    (Some 200%Q)
  = 100.
Proof. vm_compute. reflexivity. Qed.

Section DetectMood.

Variable np_std : list Q -> Q.

Lemma detect_mood_gate (events : list Event) (wpm : option Q) :
  len events < 10 \/ len (defined_intervals events) < 5 ->
  detect_mood np_std events wpm = insufficient_data.
Proof.
  intros H. unfold detect_mood.
  destruct events as [| e rest]; [reflexivity |].
  destruct (Z.ltb_spec (len (e :: rest)) 10) as [| Hlen]; [reflexivity |].
  destruct (Z.ltb_spec (len (defined_intervals (e :: rest))) 5) as [| Hint];
    [reflexivity | lia].
Qed.

(** C3. With fewer than 10 events, or with fewer than 5 events that have a
    defined interval, [detect_mood] returns Neutral with confidence 0.0 and
    an empty indicators dictionary, whatever the events and the wpm are. *)
Theorem detect_mood_insufficient (events : list Event) (wpm : option Q) :
  len events < 10 \/ len (defined_intervals events) < 5 ->
  MoodResult.mood (detect_mood np_std events wpm) = MOOD_NEUTRAL /\
  (MoodResult.confidence (detect_mood np_std events wpm) == 0)%Q /\
  MoodResult.indicators (detect_mood np_std events wpm) = [].
Proof.
  intros H. rewrite (detect_mood_gate _ _ H). simpl.
  repeat split; reflexivity.
Qed.

(** Past the gate, [detect_mood] is its rule cascade over the metrics. *)
Lemma detect_mood_sufficient (events : list Event) (wpm : Q) :
  sufficient events ->
  let m := metrics_of np_std events wpm in
  MoodResult.mood (detect_mood np_std events (Some wpm))
    = fst (first_match rules m) /\
  MoodResult.confidence (detect_mood np_std events (Some wpm))
    = py_min (snd (first_match rules m)) 1.0.
Proof.
  intros [Hlen Hint] m. unfold detect_mood.
  destruct events as [| e rest]; [unfold len in Hlen; simpl in Hlen; lia |].
  destruct (Z.ltb_spec (len (e :: rest)) 10) as [| _]; [lia |].
  destruct (Z.ltb_spec (len (defined_intervals (e :: rest))) 5) as [| _];
    [lia |].
  cbv zeta.
  unfold first_match, rules, fires, rule_focused, rule_stressed,
    rule_relaxed, rule_fatigued, RHYTHM_CONSISTENCY_THRESHOLD,
    HIGH_BURST_RATIO, LOW_WPM_THRESHOLD, HIGH_PAUSE_RATIO.
  subst m. unfold metrics_of. cbn [cv burst_ratio pause_ratio wpm_used fst snd].
  repeat match goal with
         | |- context [if ?b && ?c then _ else _] => destruct (b && c)
         | |- context [if Qltb ?a ?b then (_, _) else _] => destruct (Qltb a b)
         end; split; reflexivity.
Qed.

Lemma detect_mood_fallback (events : list Event) :
  detect_mood np_std events None
  = detect_mood np_std events (Some (fallback_wpm events)).
Proof.
  destruct events as [| e rest]; reflexivity.
Qed.

Lemma detect_mood_wpm (events : list Event) (wpm : option Q) :
  detect_mood np_std events wpm
  = detect_mood np_std events (Some (wpm_or_fallback events wpm)).
Proof.
  destruct wpm as [w |]; [reflexivity | apply detect_mood_fallback].
Qed.

Lemma count_pauses_le_intervals (events : list Event) :
  pauses_timed events ->
  count is_pause events <= len (defined_intervals events).
Proof.
  unfold count, len.
  induction 1 as [| e rest He _ IH]; simpl; [lia |].
  destruct (is_pause e) eqn:Hp, (interval e) eqn:Hi; simpl; try lia.
  exfalso. now apply He.
Qed.

(** A list of twenty events of the data model with fifteen pauses passes
    the gate. *)
Lemma fifteen_pauses_sufficient (events : list Event) :
  pauses_timed events -> len events = 20 -> count is_pause events = 15 ->
  sufficient events.
Proof.
  intros Hwf Hlen Hcount. pose proof (count_pauses_le_intervals _ Hwf).
  unfold sufficient. lia.
Qed.

(** C2. Past the data-sufficiency gate, [detect_mood] classifies by the
    ordered rule list Focused, Stressed, Relaxed, Fatigued, with Neutral at
    confidence 0.5 when no rule fires, the first rule that fires deciding
    mood and confidence (clamped to 1.0). With 20 events of which 15 are
    marked as pauses, when the Focused and Stressed rules do not fire (the
    Relaxed rule cannot), the result is Fatigued with confidence 1.0. *)
Theorem detect_mood_first_match (events : list Event) (wpm : option Q) :
  sufficient events ->
  let m := metrics_of np_std events (wpm_or_fallback events wpm) in
  let result := detect_mood np_std events wpm in
  MoodResult.mood result = fst (first_match rules m) /\
  MoodResult.confidence result = py_min (snd (first_match rules m)) 1.0 /\
  ((forall r, In r rules -> fires r m = false) ->
   MoodResult.mood result = MOOD_NEUTRAL /\
   (MoodResult.confidence result == 0.5)%Q) /\
  (len events = 20 -> count is_pause events = 15 ->
   fires rule_focused m = false -> fires rule_stressed m = false ->
   fires rule_relaxed m = false /\
   MoodResult.mood result = MOOD_FATIGUED /\
   (MoodResult.confidence result == 1)%Q).
Proof.
  intros Hs m result. subst result. rewrite detect_mood_wpm.
  destruct (detect_mood_sufficient events (wpm_or_fallback events wpm) Hs)
    as [Hmood Hconf].
  fold m in Hmood, Hconf.
  split; [exact Hmood |]. split; [exact Hconf |]. split.
  { intros Hnone. rewrite Hmood, Hconf. unfold rules in *.
    cbn [first_match].
    rewrite !Hnone by (simpl; tauto). split; reflexivity. }
  intros Hlen Hcount H1 H2.
  assert (Hp : pause_ratio m = (inject_Z 15 / inject_Z 20)%Q).
  { subst m. unfold metrics_of. cbn [pause_ratio]. now rewrite Hlen, Hcount. }
  assert (H3 : fires rule_relaxed m = false).
  { unfold fires, rule_relaxed. cbn [fst]. rewrite Hp.
    apply andb_false_iff. right. reflexivity. }
  split; [exact H3 |].
  rewrite Hmood, Hconf. unfold rules. cbn [first_match].
  rewrite H1, H2, H3.
  unfold fires, rule_fatigued. cbn [fst snd]. rewrite Hp.
  split; reflexivity.
Qed.

End DetectMood.

Lemma detect_mood_insufficient_witness :
  MoodResult.mood (detect_mood std9 (firstn 9 fifteen_pauses) (Some 80%Q))
    = MOOD_NEUTRAL /\
  MoodResult.indicators
    (detect_mood std9 (map untimed [0; 1; 2; 3; 4; 5; 6; 7] ++ firstn 4 zero_span)
       None) = [].
Proof.
  split.
  - apply (detect_mood_insufficient std9 (firstn 9 fifteen_pauses) (Some 80%Q)).
    left. vm_compute. reflexivity.
  - apply (detect_mood_insufficient std9
             (map untimed [0; 1; 2; 3; 4; 5; 6; 7] ++ firstn 4 zero_span) None).
    right. vm_compute. reflexivity.
Defined.

Lemma detect_mood_first_match_witness :
  MoodResult.mood (detect_mood std9 fifteen_pauses (Some 10%Q)) = MOOD_FATIGUED /\
  (MoodResult.confidence (detect_mood std9 fifteen_pauses (Some 10%Q)) == 1)%Q.
Proof.
  assert (Hs : sufficient fifteen_pauses).
  { apply fifteen_pauses_sufficient.
    - unfold pauses_timed, fifteen_pauses. simpl.
      repeat constructor; discriminate.
    - reflexivity.
    - reflexivity. }
  destruct (detect_mood_first_match std9 fifteen_pauses (Some 10%Q) Hs)
    as (_ & _ & _ & Hscenario).
  destruct Hscenario as (_ & Hmood & Hconf);
    [reflexivity | reflexivity | vm_compute; reflexivity
     | vm_compute; reflexivity |].
  split; assumption.
Defined.






(** ** Properties of the recorder *)

Section Recorder.

Import TypingLogger.

Lemma thresholds_disjoint (i : Q) :
  Qltb PAUSE_THRESHOLD i && Qltb i BURST_THRESHOLD = false.
Proof.
  apply andb_false_iff.
  destruct (Qltb PAUSE_THRESHOLD i) eqn:Hp; [right | now left].
  apply Qltb_lt in Hp. apply Qltb_ge.
  unfold PAUSE_THRESHOLD, BURST_THRESHOLD in *. lra.
Qed.

(** What one call of [_on_press] does to the recorder, and what it hands
    back: the outcome of the observer on the finished event, if there is
    an observer. *)
Lemma on_press_effect (self : Logger) (now : Q) :
  exists e,
    events (fst (_on_press self now)) = events self ++ [e] /\
    timestamp e = (now * 1000)%Q /\
    exclusive e /\
    keypress_count (fst (_on_press self now)) = keypress_count self + 1 /\
    last_keypress_time (fst (_on_press self now)) = Some (now * 1000)%Q /\
    snd (_on_press self now)
    = match on_event_callback self with
      | Some callback => callback e
      | None => Returns tt
      end.
Proof.
  unfold _on_press.
  destruct (last_keypress_time self) as [last |];
    destruct (on_event_callback self) as [callback |]; cbn [fst snd];
    eexists; (split; [reflexivity |]); cbn [timestamp];
    (split; [reflexivity |]);
    (split; [| repeat split]);
    unfold exclusive; cbn [is_pause is_burst interval];
    try (split; [apply thresholds_disjoint | discriminate]);
    try (split; [reflexivity | intros _; split; reflexivity]).
Qed.

Lemma step_exclusive (self : Logger) (c : call) :
  Forall exclusive (events self) -> Forall exclusive (events (step self c)).
Proof.
  intros H. destruct c as [now uuid | now | now]; cbn [step].
  - unfold start. destruct (is_running self); cbn [fst events];
      [assumption | constructor].
  - destruct (on_press_effect self now) as (e & Hev & _ & He & _).
    rewrite Hev. apply Forall_app. split; [assumption |].
    constructor; [assumption | constructor].
  - unfold stop. destruct (is_running self); cbn [negb fst];
      [| assumption].
    destruct (session_start_time self); cbn [fst events]; assumption.
Qed.

Lemma run_exclusive (calls : list call) (self : Logger) :
  Forall exclusive (events self) -> Forall exclusive (events (run self calls)).
Proof.
  unfold run. revert self.
  induction calls as [| c rest IH]; intros self H; cbn [fold_left].
  - assumption.
  - apply IH. now apply step_exclusive.
Qed.

(** C9. The event that [_on_press] appends is never both a pause and a
    burst, and is neither when it has no interval; hence every event in the
    buffer of a recorder driven by any sequence of start, keypress and
    stop calls satisfies both. *)
Theorem on_press_events_exclusive :
  (forall (self : Logger) (now : Q),
     exists e, events (fst (_on_press self now)) = events self ++ [e] /\
               exclusive e) /\
  (forall (callback : option (Event -> outcome unit)) (calls : list call),
     Forall exclusive (events (run (init callback) calls))).
Proof.
  split.
  - intros self now.
    destruct (on_press_effect self now) as (e & Hev & _ & He & _).
    exists e. split; assumption.
  - intros callback calls. apply run_exclusive. constructor.
Qed.

(** C7, as stated, fails: with an observer that raises, [_on_press] raises
    the observer's error to its caller instead of returning. *)
Lemma on_press_failing_observer_counterexample :
  on_event_callback (fst (start (init (Some failing_observer)) 0 "session"))
    = Some failing_observer /\
  snd (_on_press (fst (start (init (Some failing_observer)) 0 "session")) 1)
    = Raises (ObserverError "observer failed") /\
  snd (_on_press (fst (start (init (Some failing_observer)) 0 "session")) 1)
    <> Returns tt.
Proof.
  split; [reflexivity |]. split; [reflexivity | discriminate].
Qed.

(** C7 (amended). With an observer registered, [_on_press] appends the
    finished event, increments the counter and updates the time of the last
    keypress before it calls the observer, and its own outcome is the
    observer's outcome on that event: when the observer raises, the three
    updates have taken effect and the error is raised to the caller of
    [_on_press]. *)
Theorem on_press_observer_outcome (self : Logger) (now : Q)
  (callback : Event -> outcome unit) :
  on_event_callback self = Some callback ->
  exists e,
    events (fst (_on_press self now)) = events self ++ [e] /\
    keypress_count (fst (_on_press self now)) = keypress_count self + 1 /\
    last_keypress_time (fst (_on_press self now)) = Some (now * 1000)%Q /\
    snd (_on_press self now) = callback e /\
    (forall err, callback e = Raises err ->
                 snd (_on_press self now) = Raises err).
Proof.
  intros Hcb.
  destruct (on_press_effect self now) as (e & Hev & _ & _ & Hcount & Hlast & Hout).
  rewrite Hcb in Hout. exists e.
  repeat split; try assumption.
  intros err Herr. now rewrite Hout.
Qed.

Lemma on_press_observer_outcome_witness :
  exists e,
    events (fst (_on_press (one_keypress (Some failing_observer)) 3))
      = events (one_keypress (Some failing_observer)) ++ [e] /\
    keypress_count (fst (_on_press (one_keypress (Some failing_observer)) 3)) = 2 /\
    snd (_on_press (one_keypress (Some failing_observer)) 3)
      = Raises (ObserverError "observer failed").
Proof.
  destruct (on_press_observer_outcome (one_keypress (Some failing_observer)) 3
              failing_observer eq_refl)
    as (e & Hev & Hcount & _ & _ & Hraise).
  exists e. split; [exact Hev |]. split; [exact Hcount |].
  apply Hraise. reflexivity.
Defined.

(** *** [get_current_stats] *)

Lemma Qltb_compat (x x' y y' : Q) :
  (x == x')%Q -> (y == y')%Q -> Qltb x y = Qltb x' y'.
Proof. intros Hx Hy. unfold Qltb. now rewrite Hx, Hy. Qed.

Lemma py_max_compat (x x' y : Q) :
  (x == x')%Q -> (py_max x y == py_max x' y)%Q.
Proof.
  intros Hx. unfold py_max.
  rewrite (Qltb_compat x x' y y Hx (Qeq_refl y)).
  destruct (Qltb x' y); [reflexivity | exact Hx].
Qed.

Lemma round_half_even_compat (x x' : Q) :
  (x == x')%Q -> round_half_even x = round_half_even x'.
Proof.
  intros Hx. unfold round_half_even.
  rewrite (Qfloor_comp x x' Hx).
  assert (Hr : (x - inject_Z (Qfloor x') == x' - inject_Z (Qfloor x'))%Q)
    by now rewrite Hx.
  rewrite (Qltb_compat _ _ (1 # 2) (1 # 2) Hr (Qeq_refl _)).
  rewrite (Qltb_compat (1 # 2) (1 # 2) _ _ (Qeq_refl _) Hr).
  reflexivity.
Qed.

Lemma py_round_compat (x x' : Q) (ndigits : nat) :
  (x == x')%Q -> py_round x ndigits = py_round x' ndigits.
Proof.
  intros Hx. unfold py_round.
  set (scale := inject_Z (10 ^ Z.of_nat ndigits)).
  rewrite (round_half_even_compat (x * scale) (x' * scale)); [reflexivity |].
  now rewrite Hx.
Qed.

(** C5, as stated, fails: a running recorder with one keypress reports 0.2
    wpm over 60 s when asked one minute after the start, and 0.1 wpm over
    120 s when asked again a minute later, with no keypress in between. *)
Lemma current_stats_clock_counterexample :
  is_running (one_keypress None) = true /\
  (exists a b,
     get_current_stats (one_keypress None) 60 = Returns a /\
     get_current_stats (one_keypress None) 120 = Returns b /\
     (Stats.wpm a == 0.2)%Q /\ (Stats.wpm b == 0.1)%Q /\
     (Stats.session_duration a == 60)%Q /\
     (Stats.session_duration b == 120)%Q /\
     ~ (Stats.wpm a == Stats.wpm b)%Q) /\
  get_current_stats (one_keypress None) 60
    <> get_current_stats (one_keypress None) 120.
Proof.
  split; [reflexivity |]. split.
  - eexists. eexists.
    split; [vm_compute; reflexivity |].
    split; [vm_compute; reflexivity |].
    cbn [Stats.wpm Stats.session_duration].
    repeat split; try (vm_compute; reflexivity).
    vm_compute. discriminate.
  - intros H. vm_compute in H. discriminate.
Qed.

(** C5 (amended). Two calls of [get_current_stats] on the same recorder
    state, with no keypress, start or stop in between, return identical
    results when the recorder is stopped or has no events yet (the all-zero
    defaults), and when both calls read the same clock instant; when the
    recorder is running with events, [avg_interval], [pause_count],
    [burst_count] and [keypress_count] are equal on both calls, while
    [wpm] and [session_duration] follow the clock read by each call. *)
Theorem current_stats_repeatable (self : Logger) (now1 now2 : Q) :
  (is_running self = false \/ events self = [] ->
   get_current_stats self now1 = Returns zero_stats /\
   get_current_stats self now2 = Returns zero_stats) /\
  ((now1 == now2)%Q ->
   get_current_stats self now1 = get_current_stats self now2) /\
  (forall a b,
     get_current_stats self now1 = Returns a ->
     get_current_stats self now2 = Returns b ->
     Stats.avg_interval a = Stats.avg_interval b /\
     Stats.pause_count a = Stats.pause_count b /\
     Stats.burst_count a = Stats.burst_count b /\
     Stats.keypress_count a = Stats.keypress_count b).
Proof.
  split; [| split].
  - intros [Hstop | Hempty]; unfold get_current_stats.
    + rewrite Hstop. split; reflexivity.
    + rewrite Hempty, orb_true_r. split; reflexivity.
  - intros Hnow. unfold get_current_stats.
    destruct (negb (is_running self) || _); [reflexivity |].
    destruct (session_start_time self) as [started |]; [| reflexivity].
    cbv zeta.
    assert (Hd : ((now1 * 1000 - started) / 1000 / 60
                  == (now2 * 1000 - started) / 1000 / 60)%Q)
      by now rewrite Hnow.
    rewrite (py_round_compat (_ / py_max ((now1 * 1000 - started) / 1000 / 60) _)
               (inject_Z (keypress_count self) / 5
                / py_max ((now2 * 1000 - started) / 1000 / 60) 0.01)).
    + rewrite (py_round_compat ((now1 * 1000 - started) / 1000 / 60 * 60)
                 ((now2 * 1000 - started) / 1000 / 60 * 60));
        [reflexivity | now rewrite Hd].
    + now rewrite (py_max_compat _ _ 0.01 Hd).
  - intros a b. unfold get_current_stats.
    destruct (negb (is_running self) || _).
    + intros [= <-] [= <-]. repeat split; reflexivity.
    + destruct (session_start_time self) as [started |]; [| discriminate].
      cbv zeta. intros [= <-] [= <-]. repeat split; reflexivity.
Qed.

Lemma current_stats_repeatable_witness :
  get_current_stats (TypingLogger.init None) 60 = Returns zero_stats /\
  get_current_stats (one_keypress None) (120 # 2)
  = get_current_stats (one_keypress None) 60.
Proof.
  split.
  - apply (proj1 (current_stats_repeatable (TypingLogger.init None) 60 120)).
    left. reflexivity.
  - apply (proj1 (proj2
      (current_stats_repeatable (one_keypress None) (120 # 2) 60))).
    reflexivity.
Defined.

End Recorder.

(** ** Properties of the weekly rhythm *)

Section ListUpdate.

Context {A : Type}.

Lemma length_set_nth (i : nat) (x : A) (l : list A) :
  List.length (set_nth i x l) = List.length l.
Proof.
  revert i. induction l as [| y rest IH]; intros [| i]; simpl; auto.
Qed.

Lemma nth_set_nth_eq (i : nat) (x d : A) (l : list A) :
  (i < List.length l)%nat -> nth i (set_nth i x l) d = x.
Proof.
  revert i. induction l as [| y rest IH]; intros [| i] H; simpl in *;
    try lia; auto with arith.
Qed.

Lemma nth_set_nth_ne (i j : nat) (x d : A) (l : list A) :
  i <> j -> nth j (set_nth i x l) d = nth j l d.
Proof.
  revert i j. induction l as [| y rest IH]; intros [| i] [| j] H; simpl;
    try reflexivity; try congruence.
  apply IH. congruence.
Qed.

Lemma set_nth_same (i : nat) (x d : A) (l : list A) :
  ((i < List.length l)%nat -> nth i l d = x) -> set_nth i x l = l.
Proof.
  revert i. induction l as [| y rest IH]; intros [| i] H; simpl in *.
  - reflexivity.
  - reflexivity.
  - f_equal. symmetry. apply H. lia.
  - f_equal. apply IH. intros Hi. apply H. lia.
Qed.

Lemma Forall_set_nth (P : A -> Prop) (i : nat) (x : A) (l : list A) :
  Forall P l -> P x -> Forall P (set_nth i x l).
Proof.
  intros Hl Hx. revert i.
  induction Hl as [| y rest Hy Hrest IH]; intros [| i]; simpl;
    try constructor; auto.
Qed.

End ListUpdate.

Lemma py_index_in_range (n k : Z) :
  0 <= k < n -> py_index n k = Returns (Z.to_nat k).
Proof.
  intros H. unfold py_index.
  destruct (Z.leb_spec 0 k), (Z.ltb_spec k n); try lia. reflexivity.
Qed.

Lemma py_index_bound (n k : Z) (i : nat) :
  py_index n k = Returns i -> Z.of_nat i < n.
Proof.
  unfold py_index.
  destruct (Z.leb_spec 0 k), (Z.ltb_spec k n); cbn [andb];
    try (intros [= <-]; lia);
    destruct (Z.leb_spec (- n) k), (Z.ltb_spec k 0); cbn [andb];
    try discriminate; intros [= <-]; lia.
Qed.

Lemma at_cell_iff (d h : nat) (s : HourlyStat.t) :
  in_range s ->
  at_cell d h s = true <->
  d = Z.to_nat (HourlyStat.day_of_week s) /\ h = Z.to_nat (HourlyStat.hour s).
Proof.
  intros [Hd Hh]. unfold at_cell.
  rewrite andb_true_iff, !Z.eqb_eq. lia.
Qed.

Lemma shaped_row (m : list (list Z)) (d : nat) :
  shaped m -> (d < 7)%nat -> List.length (nth d m []) = 24%nat.
Proof.
  intros [Hlen Hrows] Hd.
  rewrite Forall_forall in Hrows. apply Hrows, nth_In. lia.
Qed.

(** One assignment [activity_matrix[day][hour] = keypress_count]. *)
Lemma record_stat_cell (m : list (list Z)) (s : HourlyStat.t) :
  shaped m -> in_range s ->
  exists m',
    record_stat m s = Returns m' /\ shaped m' /\
    forall d h, (d < 7)%nat -> (h < 24)%nat ->
      cell m' d h
      = if at_cell d h s then HourlyStat.keypress_count s else cell m d h.
Proof.
  intros Hm Hs. pose proof Hm as [Hlen Hrows]. pose proof Hs as [Hd Hh].
  unfold record_stat.
  assert (Hlm : len m = 7) by (unfold len; lia).
  rewrite Hlm, (py_index_in_range 7 _ Hd). cbn [bind].
  set (d0 := Z.to_nat (HourlyStat.day_of_week s)).
  assert (Hd0 : (d0 < 7)%nat) by (subst d0; lia).
  pose proof (shaped_row m d0 Hm Hd0) as Hrow.
  assert (Hlr : len (nth d0 m []) = 24) by (unfold len; lia).
  rewrite Hlr, (py_index_in_range 24 _ Hh). cbn [bind].
  set (h0 := Z.to_nat (HourlyStat.hour s)).
  assert (Hh0 : (h0 < 24)%nat) by (subst h0; lia).
  eexists. split; [reflexivity |]. split.
  - split.
    + now rewrite length_set_nth.
    + apply Forall_set_nth; [assumption |]. now rewrite length_set_nth.
  - intros d h Hdlt Hhlt. unfold cell.
    destruct (at_cell d h s) eqn:Hat.
    + apply (at_cell_iff d h s Hs) in Hat. destruct Hat as [-> ->].
      fold d0 h0. rewrite nth_set_nth_eq by lia.
      apply nth_set_nth_eq. lia.
    + destruct (Nat.eq_dec d0 d) as [<- | Hne].
      * rewrite nth_set_nth_eq by lia.
        destruct (Nat.eq_dec h0 h) as [<- | Hne].
        -- assert (at_cell d0 h0 s = true)
             by (apply (at_cell_iff d0 h0 s Hs); now split).
           congruence.
        -- now apply nth_set_nth_ne.
      * now rewrite nth_set_nth_ne.
Qed.

Lemma find_append {A : Type} (p : A -> bool) (l1 l2 : list A) :
  find p (l1 ++ l2)
  = match find p l1 with
    | Some x => Some x
    | None => find p l2
    end.
Proof.
  induction l1 as [| x rest IH]; simpl; [reflexivity |].
  destruct (p x); [reflexivity | exact IH].
Qed.

Lemma fill_matrix_cell (hourly_stats : list HourlyStat.t) (m : list (list Z)) :
  shaped m -> Forall in_range hourly_stats ->
  exists m',
    fill_matrix m hourly_stats = Returns m' /\ shaped m' /\
    forall d h, (d < 7)%nat -> (h < 24)%nat ->
      cell m' d h
      = match last_record d h hourly_stats with
        | Some s => HourlyStat.keypress_count s
        | None => cell m d h
        end.
Proof.
  intros Hm Hall. revert m Hm.
  induction Hall as [| s rest Hs _ IH]; intros m Hm.
  - exists m. split; [reflexivity |]. split; [assumption |].
    intros d h _ _. reflexivity.
  - destruct (record_stat_cell m s Hm Hs) as (m1 & Hrec & Hm1 & Hcell1).
    destruct (IH m1 Hm1) as (m' & Hfill & Hm' & Hcell).
    exists m'. cbn [fill_matrix]. rewrite Hrec. cbn [bind].
    split; [assumption |]. split; [assumption |].
    intros d h Hd Hh. rewrite (Hcell d h Hd Hh).
    unfold last_record. cbn [rev]. rewrite find_append.
    destruct (find (at_cell d h) (rev rest)); [reflexivity |].
    cbn [find]. rewrite (Hcell1 d h Hd Hh).
    destruct (at_cell d h s); reflexivity.
Qed.

Lemma empty_matrix_shaped : shaped empty_matrix.
Proof. split; [reflexivity | repeat constructor]. Qed.

Lemma empty_matrix_cell (d h : nat) :
  (d < 7)%nat -> (h < 24)%nat -> cell empty_matrix d h = 0.
Proof.
  intros Hd Hh.
  do 7 (destruct d as [| d]; [do 24 (destruct h as [| h]; [reflexivity |]); lia |]).
  lia.
Qed.

(** C10. When several records of [hourly_stats] carry the same
    (day_of_week, hour) pair, the cell of the activity matrix for that pair
    holds the [keypress_count] of the last of them in list order; a cell no
    record names holds 0. Counts are not added up. *)
Theorem weekly_matrix_last_record_wins (hourly_stats : list HourlyStat.t) :
  hourly_stats <> [] -> Forall in_range hourly_stats ->
  exists r,
    get_weekly_rhythm hourly_stats = Returns r /\
    forall d h, (d < 7)%nat -> (h < 24)%nat ->
      cell (Rhythm.activity_matrix r) d h
      = match last_record d h hourly_stats with
        | Some s => HourlyStat.keypress_count s
        | None => 0
        end.
Proof.
  intros Hne Hall.
  destruct (fill_matrix_cell hourly_stats empty_matrix empty_matrix_shaped Hall)
    as (m & Hfill & _ & Hcell).
  unfold get_weekly_rhythm.
  destruct hourly_stats as [| s rest]; [contradiction |].
  rewrite Hfill. cbn [bind]. eexists. split; [reflexivity |].
  cbn [Rhythm.activity_matrix]. intros d h Hd Hh.
  rewrite (Hcell d h Hd Hh).
  destruct (last_record d h (s :: rest)); [reflexivity |].
  now apply empty_matrix_cell.
Qed.

Lemma weekly_matrix_last_record_wins_witness :
  exists r,
    get_weekly_rhythm [stat 1 9 120; stat 3 14 5; stat 1 9 7] = Returns r /\
    cell (Rhythm.activity_matrix r) 1 9 = 7 /\
    cell (Rhythm.activity_matrix r) 3 14 = 5 /\
    cell (Rhythm.activity_matrix r) 0 0 = 0.
Proof.
  destruct (weekly_matrix_last_record_wins
              [stat 1 9 120; stat 3 14 5; stat 1 9 7])
    as (r & Hr & Hcell).
  - discriminate.
  - repeat constructor; vm_compute; discriminate.
  - exists r. split; [exact Hr |].
    repeat split.
    + apply (Hcell 1%nat 9%nat); lia.
    + apply (Hcell 3%nat 14%nat); lia.
    + apply (Hcell 0%nat 0%nat); lia.
Defined.

Lemma empty_matrix_row (d : nat) :
  (d < 7)%nat -> nth d empty_matrix [] = repeat 0 24%nat.
Proof.
  intros Hd. do 7 (destruct d as [| d]; [reflexivity |]). lia.
Qed.

Lemma record_stat_zero (s : HourlyStat.t) (m : list (list Z)) :
  HourlyStat.keypress_count s = 0 ->
  record_stat empty_matrix s = Returns m -> m = empty_matrix.
Proof.
  intros Hzero. unfold record_stat.
  destruct (py_index (len empty_matrix) (HourlyStat.day_of_week s))
    as [d | e] eqn:Hd; [| discriminate].
  apply py_index_bound in Hd. change (len empty_matrix) with 7 in Hd.
  cbn [bind]. rewrite (empty_matrix_row d) by lia.
  destruct (py_index (len (repeat 0 24%nat)) (HourlyStat.hour s))
    as [h | e] eqn:Hh; [| discriminate].
  cbn [bind]. intros [= <-]. rewrite Hzero.
  rewrite (set_nth_same h 0 0)
    by (intros _; exact (nth_repeat 0 24%nat h)).
  apply (set_nth_same d _ []). intros _. apply empty_matrix_row. lia.
Qed.

Lemma fill_matrix_zero (hourly_stats : list HourlyStat.t) (m : list (list Z)) :
  no_activity hourly_stats ->
  fill_matrix empty_matrix hourly_stats = Returns m -> m = empty_matrix.
Proof.
  induction 1 as [| s rest Hs _ IH]; cbn [fill_matrix].
  - now intros [= <-].
  - destruct (record_stat empty_matrix s) as [m1 | e] eqn:Hrec;
      [| discriminate].
    cbn [bind]. rewrite (record_stat_zero s m1 Hs Hrec). exact IH.
Qed.

Lemma weekly_rhythm_idle (hourly_stats : list HourlyStat.t) :
  hourly_stats <> [] ->
  fill_matrix empty_matrix hourly_stats = Returns empty_matrix ->
  get_weekly_rhythm hourly_stats = Returns idle_rhythm.
Proof.
  intros Hne Hfill. unfold get_weekly_rhythm.
  destruct hourly_stats as [| s rest]; [contradiction |].
  rewrite Hfill. vm_compute. reflexivity.
Qed.

(** C8, as stated, fails on a non-empty list whose counts are all zero:
    the peak fields are 0 (Sunday, 0:00), not null, and the matrix is the
    full 7 x 24 matrix of zeros. *)
Lemma weekly_rhythm_zero_counts_counterexample :
  no_activity [stat 1 9 0] /\
  (exists r,
     get_weekly_rhythm [stat 1 9 0] = Returns r /\
     Rhythm.peak_hour r = Some 0 /\ Rhythm.peak_day r = Some 0 /\
     Rhythm.peak_hour r <> None /\ Rhythm.peak_day r <> None /\
     Rhythm.activity_matrix r <> [] /\
     Rhythm.insights r = []).
Proof.
  split; [repeat constructor |].
  eexists. split; [vm_compute; reflexivity |].
  cbn [Rhythm.peak_hour Rhythm.peak_day Rhythm.activity_matrix Rhythm.insights].
  repeat split; discriminate.
Qed.

(** C8 (amended). [get_weekly_rhythm] returns insight strings only when
    some record of [hourly_stats] has a non-zero [keypress_count]. On the
    empty list it returns null [peak_hour], null [peak_day], an empty matrix
    and no insights; on a non-empty list whose counts are all zero it
    returns no insights, with [peak_hour = 0], [peak_day = 0] and the
    7 x 24 matrix of zeros. *)
Theorem weekly_rhythm_no_activity (hourly_stats : list HourlyStat.t) :
  (hourly_stats = [] ->
   get_weekly_rhythm hourly_stats
   = Returns {| Rhythm.peak_hour := None;
                Rhythm.peak_day := None;
                Rhythm.activity_matrix := [];
                Rhythm.insights := [] |}) /\
  (hourly_stats <> [] -> Forall in_range hourly_stats ->
   no_activity hourly_stats ->
   get_weekly_rhythm hourly_stats = Returns idle_rhythm) /\
  (forall r, get_weekly_rhythm hourly_stats = Returns r ->
             Rhythm.insights r <> [] ->
             Exists (fun s => HourlyStat.keypress_count s <> 0) hourly_stats).
Proof.
  split; [| split].
  - intros ->. reflexivity.
  - intros Hne Hall Hzero.
    destruct (fill_matrix_cell hourly_stats empty_matrix
                empty_matrix_shaped Hall) as (m & Hfill & _).
    apply weekly_rhythm_idle; [exact Hne |].
    now rewrite Hfill, (fill_matrix_zero hourly_stats m Hzero Hfill).
  - intros r Hr Hins.
    destruct (Forall_Exists_dec (fun s => HourlyStat.keypress_count s = 0)
                (fun s => Z.eq_dec (HourlyStat.keypress_count s) 0)
                hourly_stats) as [Hzero | Hex]; [| exact Hex].
    exfalso. apply Hins.
    destruct hourly_stats as [| s rest].
    + cbn in Hr. injection Hr as <-. reflexivity.
    + destruct (fill_matrix empty_matrix (s :: rest)) as [m | e] eqn:Hfill.
      * rewrite (fill_matrix_zero _ m Hzero Hfill) in Hfill.
        rewrite (weekly_rhythm_idle (s :: rest)) in Hr;
          [| discriminate | exact Hfill].
        injection Hr as <-. reflexivity.
      * unfold get_weekly_rhythm in Hr. rewrite Hfill in Hr. discriminate.
Qed.

Lemma weekly_rhythm_no_activity_witness :
  get_weekly_rhythm [stat 1 9 0; stat 6 23 0] = Returns idle_rhythm.
Proof.
  apply (proj1 (proj2 (weekly_rhythm_no_activity [stat 1 9 0; stat 6 23 0]))).
  - discriminate.
  - repeat constructor; vm_compute; discriminate.
  - repeat constructor.
Defined.

(** ** Properties of the timeline *)

Lemma py_last_nth_error {A : Type} (l : list A) (x : A) :
  nth_error l (List.length l - 1) = Some x -> py_last l = Returns x.
Proof.
  unfold py_last. rewrite <- (rev_involutive l) at 1 2.
  destruct (rev l) as [| y r]; cbn [rev].
  - discriminate.
  - rewrite length_app, nth_error_app2 by (cbn [List.length]; lia).
    cbn [List.length].
    replace (List.length (rev r) + 1 - 1 - List.length (rev r))%nat with 0%nat
      by lia.
    now intros [= ->].
Qed.

Lemma py_slice_window {A : Type} (l : list A) (i w : Z) :
  0 <= i -> 0 <= w -> i + w <= len l ->
  py_slice l i (i + w) = firstn (Z.to_nat w) (skipn (Z.to_nat i) l).
Proof.
  intros Hi Hw Hle. unfold py_slice, slice_bound.
  destruct (Z.ltb_spec i 0); [lia |].
  destruct (Z.ltb_spec (i + w) 0); [lia |].
  rewrite !Z.min_l by lia. f_equal. f_equal. lia.
Qed.

Lemma window_length {A : Type} (l : list A) (i w : Z) :
  0 <= i -> 0 <= w -> i + w <= len l ->
  len (firstn (Z.to_nat w) (skipn (Z.to_nat i) l)) = w.
Proof.
  unfold len. intros Hi Hw Hle.
  rewrite length_firstn, length_skipn. lia.
Qed.

Lemma window_last {A : Type} (l : list A) (i w : Z) :
  0 <= i -> 1 <= w -> i + w <= len l ->
  exists x,
    nth_error l (Z.to_nat (i + w - 1)) = Some x /\
    py_last (firstn (Z.to_nat w) (skipn (Z.to_nat i) l)) = Returns x.
Proof.
  intros Hi Hw Hle.
  destruct (nth_error l (Z.to_nat (i + w - 1))) as [x |] eqn:Hx.
  - exists x. split; [reflexivity |].
    apply py_last_nth_error.
    pose proof (window_length l i w Hi ltac:(lia) Hle) as Hlen.
    unfold len in Hlen.
    replace (List.length (firstn (Z.to_nat w) (skipn (Z.to_nat i) l)) - 1)%nat
      with (Z.to_nat (w - 1)) by lia.
    rewrite nth_error_firstn.
    destruct (Nat.ltb_spec (Z.to_nat (w - 1)) (Z.to_nat w)); [| lia].
    rewrite nth_error_skipn.
    replace (Z.to_nat i + Z.to_nat (w - 1))%nat with (Z.to_nat (i + w - 1))
      by lia.
    exact Hx.
  - apply nth_error_None in Hx. unfold len in Hle. lia.
Qed.

Lemma py_range_windows (n w step : Z) :
  1 <= step -> w <= n ->
  py_range 0 (n - w + 1) step
  = map (fun k => Z.of_nat k * step)
        (seq 0 (Z.to_nat ((n - w) / step + 1))).
Proof.
  intros Hstep Hw. unfold py_range.
  replace (n - w + 1 - 0 + step - 1) with (n - w + 1 * step) by lia.
  rewrite Z.div_add by lia. reflexivity.
Qed.

Lemma window_start_bound (n w step : Z) (k : nat) :
  1 <= step -> w <= n ->
  (k < Z.to_nat ((n - w) / step + 1))%nat ->
  0 <= Z.of_nat k * step /\ Z.of_nat k * step + w <= n.
Proof.
  intros Hstep Hw Hk.
  pose proof (Z.div_pos (n - w) step ltac:(lia) ltac:(lia)) as Hq.
  pose proof (Z.mul_div_le (n - w) step ltac:(lia)) as Hmul.
  split; [nia |]. nia.
Qed.

Lemma window_count_maximal (n w step : Z) :
  1 <= step -> w <= n ->
  n < Z.of_nat (Z.to_nat ((n - w) / step + 1)) * step + w.
Proof.
  intros Hstep Hw.
  pose proof (Z.div_pos (n - w) step ltac:(lia) ltac:(lia)) as Hq.
  pose proof (Z.mul_succ_div_gt (n - w) step ltac:(lia)) as Hgt.
  rewrite Z2Nat.id by lia. nia.
Qed.

Section Timeline.

Variable np_std : list Q -> Q.

Lemma timeline_loop_all (events : list Event) (window_size : Z)
  (f : Z -> Point.t) (indices : list Z) (timeline : list Point.t) :
  (forall i, In i indices ->
             timeline_step np_std events window_size i = Returns (f i)) ->
  timeline_loop np_std events window_size indices timeline
  = Returns (timeline ++ map f indices).
Proof.
  revert timeline.
  induction indices as [| i rest IH]; intros timeline Hall; cbn [timeline_loop map].
  - now rewrite app_nil_r.
  - rewrite (Hall i) by now left. cbn [bind].
    rewrite IH by (intros j Hj; apply Hall; now right).
    now rewrite <- app_assoc.
Qed.

(** The point recorded for the full window that starts at [i]. *)
Lemma timeline_step_window (events : list Event) (window_size i : Z) :
  0 <= i -> 1 <= window_size -> i + window_size <= len events ->
  exists last_event,
    nth_error events (Z.to_nat (i + window_size - 1)) = Some last_event /\
    timeline_step np_std events window_size i
    = Returns (point_of (timestamp last_event)
                 (analyze_session np_std
                    (firstn (Z.to_nat window_size)
                       (skipn (Z.to_nat i) events)))).
Proof.
  intros Hi Hw Hle.
  destruct (window_last events i window_size Hi Hw Hle) as (x & Hx & Hlast).
  exists x. split; [exact Hx |].
  unfold timeline_step.
  rewrite (py_slice_window events i window_size Hi ltac:(lia) Hle).
  rewrite Hlast. reflexivity.
Qed.

(** C4. On a list shorter than [window_size], [calculate_mood_timeline]
    returns exactly one point, whose mood, energy score and wpm are those of
    [analyze_session] on the whole list (and whose timestamp is that of the
    last event, 0 for the empty list). On a list of at least [window_size]
    events (for a window of at least one event) it returns one point per
    window of exactly [window_size] events, the windows starting at 0,
    [step], [2 * step], ... with [step = max(1, window_size // 2)], as long
    as the window fits in the list; the point of a window carries the
    timestamp of the window's last event and the analysis of the window. A
    tail shorter than [window_size] gives no point. *)
Theorem timeline_windows (events : list Event) (window_size : Z) :
  (len events < window_size ->
   exists p,
     calculate_mood_timeline np_std events window_size = Returns [p] /\
     Point.mood p = Analysis.mood (analyze_session np_std events) /\
     Point.energy_score p = Analysis.energy_score (analyze_session np_std events) /\
     Point.wpm p = Analysis.wpm (analyze_session np_std events) /\
     (events = [] -> Point.timestamp p = 0%Q) /\
     (forall last_event,
        nth_error events (List.length events - 1) = Some last_event ->
        Point.timestamp p = timestamp last_event)) /\
  (1 <= window_size <= len events ->
   let step := Z.max 1 (window_size / 2) in
   let n := Z.to_nat ((len events - window_size) / step + 1) in
   exists timeline,
     calculate_mood_timeline np_std events window_size = Returns timeline /\
     List.length timeline = n /\
     len events < Z.of_nat n * step + window_size /\
     forall k, (k < n)%nat ->
       let i := Z.of_nat k * step in
       let window :=
         firstn (Z.to_nat window_size) (skipn (Z.to_nat i) events) in
       i + window_size <= len events /\
       len window = window_size /\
       exists last_event p,
         nth_error events (Z.to_nat (i + window_size - 1)) = Some last_event /\
         nth_error timeline k = Some p /\
         Point.timestamp p = timestamp last_event /\
         Point.mood p = Analysis.mood (analyze_session np_std window) /\
         Point.energy_score p
         = Analysis.energy_score (analyze_session np_std window) /\
         Point.wpm p = Analysis.wpm (analyze_session np_std window)).
Proof.
  split.
  - intros Hshort. unfold calculate_mood_timeline.
    destruct (Z.ltb_spec (len events) window_size) as [_ |]; [| lia].
    eexists. split; [reflexivity |].
    cbn [point_of Point.mood Point.energy_score Point.wpm Point.timestamp].
    split; [reflexivity |]. split; [reflexivity |]. split; [reflexivity |].
    split.
    + intros ->. reflexivity.
    + intros last_event Hlast. apply py_last_nth_error in Hlast.
      unfold py_last in Hlast.
      destruct (rev events) as [| e r]; [discriminate |].
      now injection Hlast as ->.
  - intros [Hw Hle] step n.
    assert (Hstep : 1 <= step) by (subst step; lia).
    destruct (nth_error events 0) as [d |] eqn:Hd;
      [| apply nth_error_None in Hd; unfold len in Hle; lia].
    set (start := fun k : nat => Z.of_nat k * step).
    set (window := fun i : Z =>
           firstn (Z.to_nat window_size) (skipn (Z.to_nat i) events)).
    set (point := fun i : Z =>
           point_of (timestamp (nth (Z.to_nat (i + window_size - 1)) events d))
             (analyze_session np_std (window i))).
    assert (Hpoint : forall k, (k < n)%nat ->
              exists last_event,
                nth_error events (Z.to_nat (start k + window_size - 1))
                  = Some last_event /\
                timeline_step np_std events window_size (start k)
                  = Returns (point (start k)) /\
                point (start k)
                  = point_of (timestamp last_event)
                      (analyze_session np_std (window (start k)))).
    { intros k Hk.
      destruct (window_start_bound (len events) window_size step k
                  Hstep Hle Hk) as [H0 Hfit].
      destruct (timeline_step_window events window_size (start k)
                  H0 Hw Hfit) as (x & Hx & Hstepk).
      exists x. split; [exact Hx |].
      assert (Hpt : point (start k)
                    = point_of (timestamp x)
                        (analyze_session np_std (window (start k)))).
      { unfold point. now rewrite (nth_error_nth _ _ d Hx). }
      split; [now rewrite Hpt | exact Hpt]. }
    exists (map point (map start (seq 0 n))).
    split; [| split; [| split]].
    + unfold calculate_mood_timeline.
      destruct (Z.ltb_spec (len events) window_size); [lia |].
      fold step. rewrite (py_range_windows _ _ step Hstep Hle). fold n.
      rewrite (timeline_loop_all events window_size point); [reflexivity |].
      intros i Hi. apply in_map_iff in Hi. destruct Hi as (k & <- & Hk).
      apply in_seq in Hk.
      destruct (Hpoint k ltac:(lia)) as (_ & _ & Hstepk & _). exact Hstepk.
    + now rewrite !length_map, length_seq.
    + apply window_count_maximal; assumption.
    + intros k Hk i w.
      destruct (window_start_bound (len events) window_size step k
                  Hstep Hle Hk) as [H0 Hfit].
      split; [exact Hfit |].
      split; [apply window_length; lia |].
      destruct (Hpoint k Hk) as (x & Hx & _ & Hpt).
      exists x, (point (start k)). split; [exact Hx |].
      split.
      * rewrite !nth_error_map, nth_error_seq.
        destruct (Nat.ltb_spec k n); [| lia].
        reflexivity.
      * rewrite Hpt.
        cbn [point_of Point.mood Point.energy_score Point.wpm Point.timestamp].
        repeat split.
Qed.

End Timeline.

Lemma timeline_windows_witness :
  (exists p, calculate_mood_timeline std9 (steady 5) 30 = Returns [p]) /\
  (exists timeline,
     calculate_mood_timeline std9 (steady 50) 30 = Returns timeline /\
     List.length timeline = 2%nat).
Proof.
  split.
  - destruct (proj1 (timeline_windows std9 (steady 5) 30)) as (p & Hp & _).
    + vm_compute. reflexivity.
    + exists p. exact Hp.
  - destruct (proj2 (timeline_windows std9 (steady 50) 30))
      as (timeline & Hrun & Hlen & _).
    + split; vm_compute; discriminate.
    + exists timeline. split; [exact Hrun | exact Hlen].
Defined.

(** A window of no events cannot be analysed: with [window_size = 0] the
    first window is empty and reading its last event raises. *)
Lemma timeline_empty_window (np_std : list Q -> Q) (events : list Event) :
  calculate_mood_timeline np_std events 0 = Raises IndexError.
Proof.
  unfold calculate_mood_timeline.
  destruct (Z.ltb_spec (len events) 0) as [H |]; [unfold len in H; lia |].
  unfold py_range.
  replace (len events - 0 + 1 - 0 + Z.max 1 (0 / 2) - 1)
    with (len events + 1 * Z.max 1 (0 / 2)) by lia.
  rewrite Z.div_add by (cbn; lia).
  change (Z.max 1 (0 / 2)) with 1. rewrite Z.div_1_r.
  replace (Z.to_nat (len events + 1)) with (S (List.length events))
    by (unfold len; lia).
  cbn [seq map timeline_loop]. unfold timeline_step.
  replace (py_slice events (0 + Z.of_nat 0 * 1) (0 + Z.of_nat 0 * 1 + 0))
    with (@nil Event); [reflexivity |].
  unfold py_slice, slice_bound. cbn [Z.of_nat Z.mul Z.add Z.ltb Z.compare].
  rewrite Z.sub_diag. reflexivity.
Qed.

(** ** A recorded session

    Keypresses at 1 s, 1.01 s and 4 s after a start at 0 s: the first event
    has no interval, the second is a burst (10 ms), the third a pause
    (2990 ms). *)
Example recorded_flags :
  map (fun e => (is_pause e, is_burst e))
    (TypingLogger.get_events
       (TypingLogger.run (TypingLogger.init None)
          [TypingLogger.CallStart 0 "session"; TypingLogger.CallPress 1;
           TypingLogger.CallPress 1.01; TypingLogger.CallPress 4]))
  = [(false, false); (false, true); (true, false)].
Proof. vm_compute. reflexivity. Qed.

(** ** Invariants of the recorder *)

Lemma last_timestamp_app (prev : option Q) (l : list Event) (e : Event) :
  last_timestamp prev (l ++ [e]) = Some (timestamp e).
Proof. unfold last_timestamp. now rewrite fold_left_app. Qed.

Lemma chained_app (l : list Event) (e : Event) (prev : option Q) :
  chained prev l ->
  interval e
  = option_map (fun p => (timestamp e - p)%Q) (last_timestamp prev l) ->
  chained prev (l ++ [e]).
Proof.
  revert prev. induction l as [| x rest IH]; intros prev Hl He; cbn in *.
  - split; [exact He | exact I].
  - destruct Hl as [Hx Hrest]. split; [exact Hx |].
    apply IH; assumption.
Qed.

(** Every field of the recorder after one [_on_press]. *)
Lemma on_press_fields (self : TypingLogger.Logger) (now : Q) :
  exists e,
    TypingLogger.events (fst (TypingLogger._on_press self now))
      = TypingLogger.events self ++ [e] /\
    timestamp e = (now * 1000)%Q /\
    interval e
    = option_map (fun p => (now * 1000 - p)%Q)
        (TypingLogger.last_keypress_time self) /\
    flags_by_threshold e /\
    session_id e = TypingLogger.session_id self /\
    TypingLogger.keypress_count (fst (TypingLogger._on_press self now))
      = TypingLogger.keypress_count self + 1 /\
    TypingLogger.last_keypress_time (fst (TypingLogger._on_press self now))
      = Some (now * 1000)%Q /\
    TypingLogger.is_running (fst (TypingLogger._on_press self now))
      = TypingLogger.is_running self /\
    TypingLogger.session_id (fst (TypingLogger._on_press self now))
      = TypingLogger.session_id self /\
    TypingLogger.session_start_time (fst (TypingLogger._on_press self now))
      = TypingLogger.session_start_time self.
Proof.
  unfold TypingLogger._on_press.
  destruct (TypingLogger.last_keypress_time self) as [last |];
    destruct (TypingLogger.on_event_callback self) as [callback |];
    cbn [fst]; eexists; repeat split; reflexivity.
Qed.

Lemma init_consistent (callback : option (Event -> outcome unit)) :
  consistent (TypingLogger.init callback).
Proof.
  split; cbn; try reflexivity; try constructor; discriminate.
Qed.

Lemma step_consistent (self : TypingLogger.Logger) (c : TypingLogger.call) :
  consistent self -> consistent (TypingLogger.step self c).
Proof.
  intros [Hcount Hlast Hchain Hflags Htag Hrun].
  destruct c as [now uuid | now | now]; cbn [TypingLogger.step].
  - unfold TypingLogger.start.
    destruct (TypingLogger.is_running self) eqn:Hr; cbn [fst].
    + split; try assumption. now rewrite Hr.
    + split; cbn; try reflexivity; try constructor; discriminate.
  - destruct (on_press_fields self now)
      as (e & Hev & Hts & Hint & Hfl & Hsid & Hc & Hl & Hr & Hs & Hst).
    split.
    + rewrite Hc, Hev, Hcount. unfold len. rewrite length_app.
      cbn [List.length]. lia.
    + now rewrite Hl, Hev, last_timestamp_app, Hts.
    + rewrite Hev. apply chained_app; [assumption |].
      now rewrite Hint, Hts, Hlast.
    + rewrite Hev. apply Forall_app. split; [assumption |].
      constructor; [assumption | constructor].
    + rewrite Hev, Hs. apply Forall_app. split; [assumption |].
      constructor; [assumption | constructor].
    + rewrite Hr, Hs, Hst. assumption.
  - unfold TypingLogger.stop.
    destruct (TypingLogger.is_running self) eqn:Hr; cbn [negb fst].
    + destruct (TypingLogger.session_start_time self); cbn [fst];
        (split; cbn; try assumption; discriminate).
    + split; try assumption. now rewrite Hr.
Qed.

Lemma reachable_consistent (self : TypingLogger.Logger) :
  reachable self -> consistent self.
Proof.
  intros (callback & calls & ->). unfold TypingLogger.run.
  generalize (init_consistent callback).
  generalize (TypingLogger.init callback).
  induction calls as [| c rest IH]; intros s Hs; cbn [fold_left].
  - exact Hs.
  - apply IH. now apply step_consistent.
Qed.

Lemma reachable_three_keypresses : reachable three_keypresses.
Proof. eexists. eexists. reflexivity. Qed.

(** X1. In every recorder a program can hold, the keypress counter equals
    the number of events in the buffer, and the summary that [stop] returns
    carries the buffer with [total_keypresses] equal to its length. *)
Theorem recorder_counter_matches_buffer (self : TypingLogger.Logger) :
  reachable self ->
  TypingLogger.keypress_count self = len (TypingLogger.events self) /\
  forall now summary,
    snd (TypingLogger.stop self now) = Returns (Some summary) ->
    TypingLogger.Summary.events summary = TypingLogger.events self /\
    TypingLogger.Summary.total_keypresses summary
    = len (TypingLogger.Summary.events summary).
Proof.
  intros Hreach. destruct (reachable_consistent self Hreach) as [Hcount].
  split; [exact Hcount |].
  intros now summary. unfold TypingLogger.stop.
  destruct (TypingLogger.is_running self); cbn [negb snd]; [| discriminate].
  destruct (TypingLogger.session_start_time self); cbn [snd];
    [| discriminate].
  intros [= <-]. cbn. split; [reflexivity | exact Hcount].
Qed.

Lemma recorder_counter_matches_buffer_witness :
  TypingLogger.keypress_count three_keypresses
  = len (TypingLogger.events three_keypresses).
Proof.
  apply (recorder_counter_matches_buffer three_keypresses).
  exact reachable_three_keypresses.
Defined.

(** X2. In every recorder a program can hold, the first event of the
    buffer has no interval and every later event's interval is its
    timestamp minus the timestamp of the event before it; the time of the
    last keypress is the timestamp of the last buffered event, and is unset
    exactly when the buffer is empty. *)
Theorem recorder_intervals_chained (self : TypingLogger.Logger) :
  reachable self ->
  chained None (TypingLogger.events self) /\
  TypingLogger.last_keypress_time self
  = last_timestamp None (TypingLogger.events self) /\
  (TypingLogger.last_keypress_time self = None <->
   TypingLogger.events self = []).
Proof.
  intros Hreach.
  destruct (reachable_consistent self Hreach) as [_ Hlast Hchain].
  split; [exact Hchain |]. split; [exact Hlast |].
  rewrite Hlast.
  destruct (TypingLogger.events self) as [| e rest] using rev_ind.
  - split; reflexivity.
  - rewrite last_timestamp_app. split; [discriminate |].
    intros H. now destruct rest.
Qed.

Lemma recorder_intervals_chained_witness :
  chained None (TypingLogger.events three_keypresses).
Proof.
  apply (recorder_intervals_chained three_keypresses).
  exact reachable_three_keypresses.
Defined.

Lemma flags_by_threshold_iff (e : Event) :
  flags_by_threshold e ->
  (is_pause e = true <->
   exists i, interval e = Some i /\ (TypingLogger.PAUSE_THRESHOLD < i)%Q) /\
  (is_burst e = true <->
   exists i, interval e = Some i /\ (i < TypingLogger.BURST_THRESHOLD)%Q).
Proof.
  intros [Hp Hb]. rewrite Hp, Hb.
  destruct (interval e) as [i |].
  - rewrite !Qltb_lt. split; split.
    + intros H. now exists i.
    + now intros (j & [= <-] & H).
    + intros H. now exists i.
    + now intros (j & [= <-] & H).
  - split; split; try discriminate; now intros (j & H & _).
Qed.

(** X3. In every recorder a program can hold, a buffered event is marked
    as a pause exactly when it has an interval above 2000 ms, and as a
    burst exactly when it has an interval below 50 ms. *)
Theorem recorder_flags_follow_thresholds (self : TypingLogger.Logger) :
  reachable self ->
  Forall
    (fun e =>
       (is_pause e = true <->
        exists i, interval e = Some i /\ (2000 < i)%Q) /\
       (is_burst e = true <->
        exists i, interval e = Some i /\ (i < 50)%Q))
    (TypingLogger.events self).
Proof.
  intros Hreach.
  destruct (reachable_consistent self Hreach) as [_ _ _ Hflags].
  eapply Forall_impl; [| exact Hflags].
  intros e He. exact (flags_by_threshold_iff e He).
Qed.

Lemma recorder_flags_follow_thresholds_witness :
  Forall
    (fun e =>
       (is_pause e = true <->
        exists i, interval e = Some i /\ (2000 < i)%Q) /\
       (is_burst e = true <->
        exists i, interval e = Some i /\ (i < 50)%Q))
    (TypingLogger.events three_keypresses).
Proof.
  apply (recorder_flags_follow_thresholds three_keypresses).
  exact reachable_three_keypresses.
Defined.

(** X4. In every recorder a program can hold, every buffered event
    carries the recorder's current session id. *)
Theorem recorder_events_carry_session_id (self : TypingLogger.Logger) :
  reachable self ->
  Forall (fun e => session_id e = TypingLogger.session_id self)
    (TypingLogger.events self).
Proof.
  intros Hreach. now destruct (reachable_consistent self Hreach).
Qed.

Lemma recorder_events_carry_session_id_witness :
  Forall (fun e => session_id e = Some "session"%string)
    (TypingLogger.events three_keypresses).
Proof.
  apply (recorder_events_carry_session_id three_keypresses).
  exact reachable_three_keypresses.
Defined.

(** X5. On every recorder a program can hold, [get_current_stats] and
    [stop] return: the subtraction of [session_start_time] never meets
    [None]. *)
Theorem recorder_never_raises (self : TypingLogger.Logger) (now : Q) :
  reachable self ->
  (exists stats, TypingLogger.get_current_stats self now = Returns stats) /\
  (exists result, snd (TypingLogger.stop self now) = Returns result).
Proof.
  intros Hreach.
  destruct (reachable_consistent self Hreach) as [_ _ _ _ _ Hrun].
  unfold TypingLogger.get_current_stats, TypingLogger.stop.
  destruct (TypingLogger.is_running self); cbn [negb orb snd].
  - destruct (Hrun eq_refl) as [Hstart _].
    destruct (TypingLogger.session_start_time self) as [started |];
      [| contradiction].
    split.
    + destruct (TypingLogger.events self); eexists; reflexivity.
    + eexists. reflexivity.
  - split; eexists; reflexivity.
Qed.

Lemma recorder_never_raises_witness :
  exists stats,
    TypingLogger.get_current_stats three_keypresses 5 = Returns stats.
Proof.
  apply (recorder_never_raises three_keypresses 5).
  exact reachable_three_keypresses.
Defined.

Lemma chained_defined_length (events : list Event) (prev : option Q) :
  chained prev events ->
  List.length (defined_intervals events)
  = match prev with
    | Some _ => List.length events
    | None => Nat.pred (List.length events)
    end.
Proof.
  revert prev.
  induction events as [| e rest IH]; intros prev Hc.
  - destruct prev; reflexivity.
  - destruct Hc as [He Hrest]. specialize (IH _ Hrest).
    cbn [defined_intervals]. rewrite He.
    destruct prev; cbn [option_map List.length Nat.pred]; now rewrite ?IH.
Qed.

Lemma chained_defined_intervals (events : list Event) (prev : option Q) :
  chained prev events ->
  len (defined_intervals events)
  = match prev with
    | Some _ => len events
    | None => Z.max 0 (len events - 1)
    end.
Proof.
  intros Hc. unfold len. rewrite (chained_defined_length events prev Hc).
  destruct prev; lia.
Qed.

Lemma flags_pauses_timed (events : list Event) :
  Forall flags_by_threshold events -> pauses_timed events.
Proof.
  unfold pauses_timed. apply Forall_impl.
  intros e [Hp _] Hpause. rewrite Hp in Hpause.
  destruct (interval e); [discriminate | discriminate].
Qed.

(** X6. The buffer of a recorder holds exactly one event without an
    interval, the first, so a live buffer of at least 10 events always
    passes both data-sufficiency thresholds of [detect_mood]; its pauses
    all have intervals. *)
Theorem recorded_buffer_sufficient (self : TypingLogger.Logger) :
  reachable self ->
  (TypingLogger.events self <> [] ->
   len (defined_intervals (TypingLogger.events self))
   = len (TypingLogger.events self) - 1) /\
  (10 <= len (TypingLogger.events self) ->
   sufficient (TypingLogger.events self)) /\
  pauses_timed (TypingLogger.events self).
Proof.
  intros Hreach.
  destruct (reachable_consistent self Hreach) as [_ _ Hchain Hflags].
  pose proof (chained_defined_intervals _ None Hchain) as Hlen.
  cbv beta iota in Hlen.
  split; [| split].
  - intros Hne. rewrite Hlen.
    destruct (TypingLogger.events self); [contradiction |].
    unfold len. cbn [List.length]. lia.
  - intros H10. split; [exact H10 | lia].
  - now apply flags_pauses_timed.
Qed.

Lemma recorded_buffer_sufficient_witness :
  len (defined_intervals (TypingLogger.events three_keypresses)) = 2.
Proof.
  apply (proj1 (recorded_buffer_sufficient three_keypresses
                  reachable_three_keypresses)).
  discriminate.
Defined.

Lemma count_nonneg {A : Type} (p : A -> bool) (l : list A) : 0 <= count p l.
Proof. unfold count. apply len_nonneg. Qed.

Lemma count_disjoint {A : Type} (p q : A -> bool) (l : list A) :
  Forall (fun x => p x && q x = false) l -> count p l + count q l <= len l.
Proof.
  unfold count, len.
  induction 1 as [| x rest Hx _ IH]; cbn [filter List.length]; [lia |].
  destruct (p x), (q x); cbn [List.length] in *; try discriminate; lia.
Qed.

Lemma flags_disjoint (e : Event) :
  flags_by_threshold e -> is_pause e && is_burst e = false.
Proof.
  intros [Hp Hb]. rewrite Hp, Hb.
  destruct (interval e); [apply thresholds_disjoint | reflexivity].
Qed.

(** X7. On every recorder a program can hold, the counts reported by
    [get_current_stats] are consistent: pauses and bursts are counted
    apart, and together they never exceed the reported keypress count. *)
Theorem current_stats_counts_bounded (self : TypingLogger.Logger) (now : Q)
  (stats : TypingLogger.Stats.t) :
  reachable self ->
  TypingLogger.get_current_stats self now = Returns stats ->
  0 <= TypingLogger.Stats.pause_count stats /\
  0 <= TypingLogger.Stats.burst_count stats /\
  TypingLogger.Stats.pause_count stats + TypingLogger.Stats.burst_count stats
  <= TypingLogger.Stats.keypress_count stats.
Proof.
  intros Hreach.
  destruct (reachable_consistent self Hreach) as [Hcount _ _ Hflags].
  unfold TypingLogger.get_current_stats.
  destruct (negb (TypingLogger.is_running self) || _).
  - intros [= <-]. cbn. lia.
  - destruct (TypingLogger.session_start_time self); [| discriminate].
    cbv zeta. intros [= <-]. cbn.
    split; [apply count_nonneg |]. split; [apply count_nonneg |].
    rewrite Hcount. apply count_disjoint.
    eapply Forall_impl; [| exact Hflags]. exact flags_disjoint.
Qed.

Lemma current_stats_counts_bounded_witness :
  exists stats,
    TypingLogger.get_current_stats three_keypresses 5 = Returns stats /\
    TypingLogger.Stats.pause_count stats
    + TypingLogger.Stats.burst_count stats
    <= TypingLogger.Stats.keypress_count stats.
Proof.
  eexists. split; [vm_compute; reflexivity |].
  eapply (current_stats_counts_bounded three_keypresses 5).
  - exact reachable_three_keypresses.
  - vm_compute. reflexivity.
Defined.

Lemma run_presses (presses : list Q) (self : TypingLogger.Logger) :
  let after := TypingLogger.run self (map TypingLogger.CallPress presses) in
  TypingLogger.is_running after = TypingLogger.is_running self /\
  TypingLogger.session_id after = TypingLogger.session_id self /\
  exists recorded,
    TypingLogger.events after = TypingLogger.events self ++ recorded /\
    len recorded = len presses.
Proof.
  unfold TypingLogger.run. revert self.
  induction presses as [| now rest IH]; intros self; cbn [map fold_left].
  - repeat split. exists []. now rewrite app_nil_r.
  - cbn [TypingLogger.step].
    destruct (on_press_fields self now)
      as (e & Hev & _ & _ & _ & _ & _ & _ & Hr & Hs & _).
    destruct (IH (fst (TypingLogger._on_press self now)))
      as (Hr' & Hs' & recorded & Hev' & Hlen).
    split; [congruence |]. split; [congruence |].
    exists (e :: recorded). split.
    + rewrite Hev', Hev, <- app_assoc. reflexivity.
    + unfold len in *. cbn [List.length]. lia.
Qed.

(** X8. Starting a stopped recorder, typing, and calling [start] again
    without a [stop] in between: the second [start] returns the session id
    of the first, changes nothing, and every keypress typed in between is
    still in the buffer. *)
Theorem start_twice_keeps_session (self : TypingLogger.Logger)
  (now now' : Q) (uuid uuid' : string) (presses : list Q) :
  TypingLogger.is_running self = false ->
  let started := fst (TypingLogger.start self now uuid) in
  let typed := TypingLogger.run started (map TypingLogger.CallPress presses) in
  snd (TypingLogger.start self now uuid) = Some uuid /\
  TypingLogger.start typed now' uuid' = (typed, Some uuid) /\
  len (TypingLogger.events typed) = len presses.
Proof.
  intros Hstopped started typed.
  assert (Hstart : TypingLogger.is_running started = true
                   /\ TypingLogger.session_id started = Some uuid
                   /\ TypingLogger.events started = []
                   /\ snd (TypingLogger.start self now uuid) = Some uuid).
  { subst started. unfold TypingLogger.start. rewrite Hstopped.
    repeat split. }
  destruct Hstart as (Hr & Hs & Hev & Hid).
  destruct (run_presses presses started) as (Hr' & Hs' & recorded & Hev' & Hlen).
  fold typed in Hr', Hs', Hev'.
  split; [exact Hid |]. split.
  - unfold TypingLogger.start. now rewrite Hr', Hr, Hs', Hs.
  - now rewrite Hev', Hev.
Qed.

Lemma start_twice_keeps_session_witness :
  TypingLogger.start
    (TypingLogger.run (fst (TypingLogger.start (TypingLogger.init None) 0 "a"))
       (map TypingLogger.CallPress [1; 2]%Q))
    3 "b"
  = (TypingLogger.run (fst (TypingLogger.start (TypingLogger.init None) 0 "a"))
       (map TypingLogger.CallPress [1; 2]%Q),
     Some "a"%string).
Proof.
  apply (start_twice_keeps_session (TypingLogger.init None) 0 3 "a" "b"
           [1; 2]%Q).
  reflexivity.
Defined.

(** X9. Stopping a running recorder that a program can hold returns its
    summary and leaves the buffer in place, but from then on
    [get_current_stats] reports the all-zero defaults, and a second [stop]
    returns the empty dictionary and changes nothing. *)
Theorem stopped_recorder_reports_zero (self : TypingLogger.Logger)
  (now now' : Q) :
  reachable self -> TypingLogger.is_running self = true ->
  let stopped := fst (TypingLogger.stop self now) in
  (exists summary,
     snd (TypingLogger.stop self now) = Returns (Some summary) /\
     TypingLogger.Summary.session_id summary = TypingLogger.session_id self) /\
  TypingLogger.get_events stopped = TypingLogger.get_events self /\
  TypingLogger.get_current_stats stopped now'
  = Returns TypingLogger.zero_stats /\
  TypingLogger.stop stopped now' = (stopped, Returns None).
Proof.
  intros Hreach Hrun stopped.
  destruct (reachable_consistent self Hreach) as [_ _ _ _ _ Hstarted].
  destruct (Hstarted Hrun) as [Hst _].
  destruct (TypingLogger.session_start_time self) as [started |] eqn:Hs;
    [| contradiction].
  assert (Hstop : exists summary,
            TypingLogger.stop self now
            = ({| TypingLogger.is_running := false;
                  TypingLogger.session_id := TypingLogger.session_id self;
                  TypingLogger.last_keypress_time :=
                    TypingLogger.last_keypress_time self;
                  TypingLogger.keypress_count :=
                    TypingLogger.keypress_count self;
                  TypingLogger.session_start_time := Some started;
                  TypingLogger.on_event_callback :=
                    TypingLogger.on_event_callback self;
                  TypingLogger.events := TypingLogger.events self |},
               Returns (Some summary)) /\
            TypingLogger.Summary.session_id summary
            = TypingLogger.session_id self).
  { unfold TypingLogger.stop. rewrite Hrun, Hs. cbn [negb].
    eexists. split; reflexivity. }
  destruct Hstop as (summary & Hstop & Hid).
  subst stopped. rewrite Hstop. cbn [fst snd].
  split; [exists summary; split; [reflexivity | exact Hid] |].
  split; [reflexivity |]. split; reflexivity.
Qed.

Lemma stopped_recorder_reports_zero_witness :
  TypingLogger.get_current_stats
    (fst (TypingLogger.stop three_keypresses 5)) 6
  = Returns TypingLogger.zero_stats.
Proof.
  apply (stopped_recorder_reports_zero three_keypresses 5 6).
  - exact reachable_three_keypresses.
  - reflexivity.
Defined.

(** ** Ranges of the analyzer's results *)

Lemma py_min_le_l (a b : Q) : (py_min a b <= a)%Q.
Proof.
  unfold py_min. destruct (Qltb b a) eqn:H.
  - apply Qltb_lt in H. lra.
  - lra.
Qed.

Lemma py_min_le_r (a b : Q) : (py_min a b <= b)%Q.
Proof.
  unfold py_min. destruct (Qltb b a) eqn:H.
  - lra.
  - apply Qltb_ge in H. exact H.
Qed.

Lemma py_min_glb (a b c : Q) : (c <= a)%Q -> (c <= b)%Q -> (c <= py_min a b)%Q.
Proof. intros Ha Hb. unfold py_min. now destruct (Qltb b a). Qed.

Lemma py_min_glb_lt (a b c : Q) : (c < a)%Q -> (c < b)%Q -> (c < py_min a b)%Q.
Proof. intros Ha Hb. unfold py_min. now destruct (Qltb b a). Qed.

Lemma py_max_lub (a b c : Q) : (a <= c)%Q -> (b <= c)%Q -> (py_max a b <= c)%Q.
Proof. intros Ha Hb. unfold py_max. now destruct (Qltb a b). Qed.

Lemma py_max_ge_l (a b : Q) : (a <= py_max a b)%Q.
Proof.
  unfold py_max. destruct (Qltb a b) eqn:H.
  - apply Qltb_lt in H. lra.
  - lra.
Qed.

(** The confidence that the rule list assigns, before the clamp. *)
Lemma first_match_confidence (m : Metrics) :
  (1 # 2 <= snd (first_match rules m))%Q /\
  (fst (first_match rules m) = MOOD_FOCUSED ->
   (91 # 100 < snd (first_match rules m))%Q).
Proof.
  unfold rules. cbn [first_match].
  unfold fires, rule_focused, rule_stressed, rule_relaxed, rule_fatigued.
  cbn [fst snd].
  destruct (Qltb (cv m) 0.3 && Qltb 35 (wpm_used m)) eqn:H1.
  { apply andb_true_iff in H1. destruct H1 as [H1 _]. apply Qltb_lt in H1.
    cbn [fst snd]. split; [| intros _]; lra. }
  destruct (Qltb 0.3 (burst_ratio m) && Qltb 0.5 (cv m)) eqn:H2.
  { apply andb_true_iff in H2. destruct H2 as [H2 _]. apply Qltb_lt in H2.
    cbn [fst snd]. split; [lra | discriminate]. }
  destruct (Qltb (wpm_used m) 30 && Qltb (pause_ratio m) 0.1) eqn:H3.
  { apply andb_true_iff in H3. destruct H3 as [H3 _]. apply Qltb_lt in H3.
    cbn [fst snd]. split; [| discriminate].
    assert (wpm_used m / 30 < 1)%Q.
    { apply Qlt_shift_div_r; lra. }
    lra. }
  destruct (Qltb 0.1 (pause_ratio m)) eqn:H4.
  { apply Qltb_lt in H4. cbn [fst snd]. split; [lra | discriminate]. }
  cbn [fst snd]. split; [lra | discriminate].
Qed.

(** X10. The confidence of [detect_mood] is always between 0 and 1. It is
    0 only for insufficient data: past the gate it is at least 0.5, and a
    Focused result has a confidence of at least 0.9, whatever [numpy.std]
    returns. *)
Theorem detect_mood_confidence_range (np_std : list Q -> Q)
  (events : list Event) (wpm : option Q) :
  let result := detect_mood np_std events wpm in
  (0 <= MoodResult.confidence result <= 1)%Q /\
  (sufficient events -> (1 # 2 <= MoodResult.confidence result)%Q) /\
  (MoodResult.mood result = MOOD_FOCUSED ->
   (9 # 10 <= MoodResult.confidence result)%Q).
Proof.
  intros result. subst result.
  destruct (Z.lt_ge_cases (len events) 10) as [Hshort | Hlen].
  { rewrite (detect_mood_gate np_std events wpm (or_introl Hshort)).
    cbn. split; [split; discriminate |].
    split; [intros [H _]; lia | discriminate]. }
  destruct (Z.lt_ge_cases (len (defined_intervals events)) 5) as [Hfew | Hint].
  { rewrite (detect_mood_gate np_std events wpm (or_intror Hfew)).
    cbn. split; [split; discriminate |].
    split; [intros [_ H]; lia | discriminate]. }
  assert (Hs : sufficient events) by (split; assumption).
  rewrite detect_mood_wpm.
  destruct (detect_mood_sufficient np_std events (wpm_or_fallback events wpm) Hs)
    as [Hmood Hconf].
  rewrite Hmood, Hconf.
  destruct (first_match_confidence
              (metrics_of np_std events (wpm_or_fallback events wpm)))
    as [Hhalf Hfocus].
  set (c := snd (first_match rules
                   (metrics_of np_std events (wpm_or_fallback events wpm)))) in *.
  pose proof (py_min_le_r c 1.0) as Hle.
  split; [split |]; [| | split].
  - apply py_min_glb; lra.
  - lra.
  - intros _. apply py_min_glb; [exact Hhalf | lra].
  - intros Hf. specialize (Hfocus Hf). apply py_min_glb; lra.
Qed.

Lemma detect_mood_confidence_range_witness :
  (1 # 2 <= MoodResult.confidence (detect_mood std9 fifteen_pauses None))%Q.
Proof.
  apply (proj1 (proj2
    (detect_mood_confidence_range std9 fifteen_pauses None))).
  split; vm_compute; discriminate.
Defined.

Lemma py_int_le (q : Q) (n : Z) : (q <= inject_Z n)%Q -> py_int q <= n.
Proof.
  destruct q as [a b]. unfold py_int, Qle. cbn [Qnum Qden inject_Z].
  intros H. rewrite Z.mul_1_r in H.
  rewrite <- (Z.quot_mul n (Z.pos b)) by lia.
  apply Z.quot_le_mono; lia.
Qed.

Lemma ratio_nonneg (a b : Z) : 0 <= a -> 0 <= b -> (0 <= inject_Z a / inject_Z b)%Q.
Proof.
  intros Ha Hb. unfold Qdiv.
  apply Qmult_le_0_compat.
  - unfold Qle. cbn [Qnum Qden inject_Z]. lia.
  - apply Qinv_le_0_compat. unfold Qle. cbn [Qnum Qden inject_Z]. lia.
Qed.

Lemma truthy_zero : truthy (Some 0%Q) = None.
Proof. reflexivity. Qed.

(** X11. A wpm of 0 is treated by [calculate_energy_score] as no wpm at
    all (the score is not multiplied by 0), and without a wpm boost the
    score never exceeds 80. *)
Theorem energy_score_without_boost (events : list Event) :
  calculate_energy_score events (Some 0%Q) = calculate_energy_score events None /\
  calculate_energy_score events None <= 80.
Proof.
  split.
  - unfold calculate_energy_score. now rewrite truthy_zero.
  - unfold calculate_energy_score.
    destruct events as [| e rest]; [lia |].
    destruct (defined_intervals (e :: rest)) as [| i intervals]; [lia |].
    cbv zeta. cbn [truthy].
    set (avg := np_mean (i :: intervals)).
    set (br := (inject_Z (count is_burst (e :: rest))
                / inject_Z (len (e :: rest)))%Q).
    set (pr := (inject_Z (count is_pause (e :: rest))
                / inject_Z (len (e :: rest)))%Q).
    assert (Hspeed : (py_max 0 (py_min 100 (100 - avg / 10)) <= 100)%Q).
    { apply py_max_lub; [lra | apply py_min_le_l]. }
    assert (Hburst : (py_min 100 (br * 300) <= 100)%Q) by apply py_min_le_l.
    assert (Hpause : (0 <= pr)%Q).
    { apply ratio_nonneg; [apply count_nonneg | apply len_nonneg]. }
    assert (Hq : (py_max 0 (py_min 100 (100 - avg / 10)) * 0.4
                  + py_min 100 (br * 300) * 0.4 - pr * 50
                  <= inject_Z 80)%Q).
    { change (inject_Z 80) with 80%Q. lra. }
    apply py_int_le in Hq. lia.
Qed.

(** ** Session analysis *)

Lemma energy_score_bounds (events : list Event) (wpm : option Q) :
  0 <= calculate_energy_score events wpm <= 100.
Proof.
  unfold calculate_energy_score.
  destruct events as [| e rest]; [lia |].
  destruct (defined_intervals (e :: rest)); [lia |].
  cbv zeta. lia.
Qed.

Lemma round_half_even_Z (z : Z) : round_half_even (inject_Z z) = z.
Proof.
  unfold round_half_even. rewrite Qfloor_Z.
  assert (H : (inject_Z z - inject_Z z == 0)%Q) by ring.
  now rewrite (Qltb_compat _ 0 (1 # 2) (1 # 2) H (Qeq_refl _)).
Qed.

Lemma py_round_Z (q : Q) (z : Z) (ndigits : nat) :
  (q == inject_Z z)%Q -> (py_round q ndigits == inject_Z z)%Q.
Proof.
  intros Hq. rewrite (py_round_compat q (inject_Z z) ndigits Hq).
  unfold py_round.
  set (k := 10 ^ Z.of_nat ndigits).
  assert (Hk : 0 < k) by (subst k; apply Z.pow_pos_nonneg; lia).
  rewrite (round_half_even_compat (inject_Z z * inject_Z k) (inject_Z (z * k)))
    by (now rewrite inject_Z_mult).
  rewrite round_half_even_Z, inject_Z_mult.
  field. unfold Qeq. cbn [Qnum Qden inject_Z]. lia.
Qed.

Lemma py_max_floor (d : Q) : (d <= 0.01)%Q -> (py_max d 0.01 == 0.01)%Q.
Proof.
  intros Hd. unfold py_max. destruct (Qltb d 0.01) eqn:H.
  - reflexivity.
  - apply Qltb_ge in H. lra.
Qed.

(** X12. A session that spans at most 600 ms from its first to its last
    timestamp -- a single keypress, a fast burst, or a list whose
    timestamps run backwards -- is reported by [analyze_session] at exactly
    20 wpm per event, because the duration is floored at 0.01 minutes. *)
Theorem analyze_session_floored_wpm (np_std : list Q -> Q)
  (events : list Event) :
  events <> [] ->
  (span_minutes events <= 0.01)%Q ->
  (Analysis.wpm (analyze_session np_std events)
   == inject_Z (20 * len events))%Q.
Proof.
  intros Hne Hspan. unfold analyze_session.
  destruct events as [| first rest]; [contradiction |].
  set (events := first :: rest) in *.
  assert (Hw : forall dm : Q,
             (dm <= 0.01)%Q ->
             (inject_Z (len events) / 5 / py_max dm 0.01
              == inject_Z (20 * len events))%Q).
  { intros dm Hdm. rewrite (py_max_floor dm Hdm), inject_Z_mult.
    change (inject_Z 20) with 20%Q. field. }
  destruct (2 <=? len events).
  - cbn [Analysis.wpm]. apply py_round_Z. apply Hw. exact Hspan.
  - cbn [Analysis.wpm]. apply py_round_Z. apply Hw. lra.
Qed.

Lemma analyze_session_floored_wpm_witness :
  (Analysis.wpm (analyze_session std9 [untimed 1000]) == 20)%Q /\
  (Analysis.wpm (analyze_session std9 (rev (steady 12))) == 240)%Q.
Proof.
  split.
  - apply (analyze_session_floored_wpm std9 [untimed 1000]).
    + discriminate.
    + vm_compute. discriminate.
  - apply (analyze_session_floored_wpm std9 (rev (steady 12))).
    + discriminate.
    + vm_compute. discriminate.
Defined.

(** X13. [analyze_session] counts every event, keeps the energy score
    within 0..100, and reports any list of fewer than 10 events as Neutral
    without indicators, whatever its timing: with confidence 0.0 when the
    list is not empty, and with no confidence entry when it is. *)
Theorem analyze_session_small (np_std : list Q -> Q) (events : list Event) :
  let analysis := analyze_session np_std events in
  Analysis.total_keypresses analysis = len events /\
  0 <= Analysis.energy_score analysis <= 100 /\
  (len events < 10 ->
   Analysis.mood analysis = MOOD_NEUTRAL /\
   Analysis.indicators analysis = [] /\
   (events = [] -> Analysis.mood_confidence analysis = None) /\
   (events <> [] ->
    exists c, Analysis.mood_confidence analysis = Some c /\ (c == 0)%Q)).
Proof.
  intros analysis. subst analysis. unfold analyze_session.
  destruct events as [| first rest].
  - cbn. split; [reflexivity |]. split; [lia |]. intros _.
    split; [reflexivity |]. split; [reflexivity |]. split; [reflexivity |].
    intros Hne. contradiction.
  - set (events := first :: rest).
    destruct (2 <=? len events); cbn [Analysis.total_keypresses
      Analysis.energy_score Analysis.mood Analysis.indicators
      Analysis.mood_confidence];
      (split; [reflexivity |]); (split; [apply energy_score_bounds |]);
      intros Hshort;
      rewrite (detect_mood_gate np_std events _ (or_introl Hshort));
      cbn; repeat split; try discriminate;
      intros _; eexists; split; reflexivity.
Qed.

Lemma analyze_session_small_witness :
  Analysis.mood (analyze_session std9 (steady 9)) = MOOD_NEUTRAL.
Proof.
  apply (analyze_session_small std9 (steady 9)).
  vm_compute. reflexivity.
Defined.

(** ** The timeline as a list of windows *)

Section TimelinePoints.

Variable np_std : list Q -> Q.

(** The timeline of a list that holds at least one full window. *)
Lemma timeline_points (events : list Event) (window_size : Z) (d : Event) :
  1 <= window_size <= len events ->
  calculate_mood_timeline np_std events window_size
  = Returns
      (map (fun k =>
              point_of
                (timestamp
                   (nth (Z.to_nat (Z.of_nat k * Z.max 1 (window_size / 2)
                                   + window_size - 1)) events d))
                (analyze_session np_std
                   (firstn (Z.to_nat window_size)
                      (skipn (Z.to_nat (Z.of_nat k * Z.max 1 (window_size / 2)))
                         events))))
           (seq 0 (Z.to_nat ((len events - window_size)
                             / Z.max 1 (window_size / 2) + 1)))).
Proof.
  intros [Hw Hle]. set (step := Z.max 1 (window_size / 2)).
  assert (Hstep : 1 <= step) by (subst step; lia).
  unfold calculate_mood_timeline.
  destruct (Z.ltb_spec (len events) window_size); [lia |].
  fold step. rewrite (py_range_windows _ _ step Hstep Hle).
  set (point := fun i : Z =>
         point_of (timestamp (nth (Z.to_nat (i + window_size - 1)) events d))
           (analyze_session np_std
              (firstn (Z.to_nat window_size) (skipn (Z.to_nat i) events)))).
  rewrite (timeline_loop_all np_std events window_size point).
  - cbn [app]. now rewrite map_map.
  - intros i Hi. apply in_map_iff in Hi. destruct Hi as (k & <- & Hk).
    apply in_seq in Hk.
    destruct (window_start_bound (len events) window_size step k
                Hstep Hle ltac:(lia)) as [H0 Hfit].
    destruct (timeline_step_window np_std events window_size
                (Z.of_nat k * step) H0 Hw Hfit) as (x & Hx & Hstepk).
    rewrite Hstepk. unfold point. now rewrite (nth_error_nth _ _ d Hx).
Qed.

(** The energy score that [analyze_session] reports. *)
Lemma energy_score_range_of_analysis (ts : Q) (events : list Event) :
  0 <= Point.energy_score (point_of ts (analyze_session np_std events)) <= 100.
Proof.
  unfold point_of. cbn [Point.energy_score]. unfold analyze_session.
  destruct events as [| first rest]; [cbn; lia |].
  destruct (2 <=? len (first :: rest)); cbn [Analysis.energy_score];
    apply energy_score_bounds.
Qed.

Lemma window_count_bounds (n w step : Z) :
  1 <= step -> 1 <= w <= n ->
  1 <= (n - w) / step + 1 <= n.
Proof.
  intros Hstep [Hw Hle].
  pose proof (Z.div_pos (n - w) step ltac:(lia) ltac:(lia)).
  pose proof (Z.div_le_upper_bound (n - w) step (n - w) ltac:(lia)
                ltac:(nia)).
  lia.
Qed.

(** X14. For a window of at least one event, [calculate_mood_timeline]
    always returns, with at least one point and never more points than
    events (one point for an empty list), and every point's energy score
    lies within 0..100. *)
Theorem timeline_never_empty (events : list Event) (window_size : Z) :
  1 <= window_size ->
  exists timeline,
    calculate_mood_timeline np_std events window_size = Returns timeline /\
    1 <= len timeline <= Z.max 1 (len events) /\
    Forall (fun p => 0 <= Point.energy_score p <= 100) timeline.
Proof.
  intros Hw.
  destruct (Z.lt_ge_cases (len events) window_size) as [Hshort | Hle].
  - unfold calculate_mood_timeline.
    destruct (Z.ltb_spec (len events) window_size); [| lia].
    eexists. split; [reflexivity |]. split.
    + unfold len. cbn [List.length]. lia.
    + constructor; [apply energy_score_range_of_analysis | constructor].
  - destruct (nth_error events 0) as [d |] eqn:Hd;
      [| apply nth_error_None in Hd; unfold len in Hle; lia].
    rewrite (timeline_points events window_size d (conj Hw Hle)).
    eexists. split; [reflexivity |]. split.
    + pose proof (window_count_bounds (len events) window_size
                    (Z.max 1 (window_size / 2)) ltac:(lia) (conj Hw Hle)).
      set (n := (len events - window_size) / Z.max 1 (window_size / 2) + 1)
        in *.
      assert (Hlen : forall f : nat -> Point.t,
                 len (map f (seq 0 (Z.to_nat n))) = n).
      { intros f. unfold len. rewrite length_map, length_seq. lia. }
      rewrite Hlen. lia.
    + apply Forall_forall. intros p Hp. apply in_map_iff in Hp.
      destruct Hp as (k & <- & _). apply energy_score_range_of_analysis.
Qed.

Lemma sorted_nth (l : list Q) (i j : nat) (d : Q) :
  StronglySorted Qle l -> (i < j < List.length l)%nat ->
  (nth i l d <= nth j l d)%Q.
Proof.
  intros Hs. revert i j.
  induction Hs as [| x rest _ IH Hx]; intros i j Hij; cbn in Hij; [lia |].
  destruct i as [| i], j as [| j]; try lia; cbn [nth].
  - rewrite Forall_forall in Hx. apply Hx, nth_In. lia.
  - apply IH. lia.
Qed.

Lemma sorted_map_seq (f : nat -> Q) (n a : nat) :
  (forall i j, (a <= i < j)%nat -> (j < a + n)%nat -> (f i <= f j)%Q) ->
  StronglySorted Qle (map f (seq a n)).
Proof.
  revert a. induction n as [| n IH]; intros a Hf; cbn [seq map].
  - constructor.
  - constructor.
    + apply IH. intros i j Hij Hj. apply Hf; lia.
    + apply Forall_forall. intros y Hy. apply in_map_iff in Hy.
      destruct Hy as (j & <- & Hj). apply in_seq in Hj. apply Hf; lia.
Qed.

(** X15. On a non-empty list and a window of at least one event, every
    point of the timeline carries the timestamp of an event of the list,
    and when the events are in chronological order so is the timeline. *)
Theorem timeline_timestamps (events : list Event) (window_size : Z) :
  events <> [] -> 1 <= window_size ->
  exists timeline,
    calculate_mood_timeline np_std events window_size = Returns timeline /\
    Forall (fun p => In (Point.timestamp p) (map timestamp events)) timeline /\
    (StronglySorted Qle (map timestamp events) ->
     StronglySorted Qle (map Point.timestamp timeline)).
Proof.
  intros Hne Hw.
  destruct (Z.lt_ge_cases (len events) window_size) as [Hshort | Hle].
  - unfold calculate_mood_timeline.
    destruct (Z.ltb_spec (len events) window_size); [| lia].
    eexists. split; [reflexivity |]. split.
    + constructor; [| constructor]. cbn [point_of Point.timestamp].
      destruct (rev events) as [| e r] eqn:Hrev.
      * apply (f_equal (@rev Event)) in Hrev. rewrite rev_involutive in Hrev.
        contradiction.
      * apply in_map, in_rev. rewrite Hrev. now left.
    + intros _. cbn [map]. repeat constructor.
  - destruct (nth_error events 0) as [d |] eqn:Hd;
      [| apply nth_error_None in Hd; unfold len in Hle; lia].
    rewrite (timeline_points events window_size d (conj Hw Hle)).
    set (step := Z.max 1 (window_size / 2)).
    assert (Hstep : 1 <= step) by (subst step; lia).
    set (n := Z.to_nat ((len events - window_size) / step + 1)).
    set (idx := fun k : nat => Z.to_nat (Z.of_nat k * step + window_size - 1)).
    assert (Hidx : forall k, (k < n)%nat -> (idx k < List.length events)%nat).
    { intros k Hk.
      destruct (window_start_bound (len events) window_size step k
                  Hstep Hle Hk) as [H0 Hfit].
      subst idx. unfold len in Hfit. cbv beta. lia. }
    eexists. split; [reflexivity |]. split.
    + apply Forall_forall. intros p Hp. apply in_map_iff in Hp.
      destruct Hp as (k & <- & Hk). apply in_seq in Hk.
      cbn [point_of Point.timestamp]. apply in_map, nth_In.
      apply (Hidx k). lia.
    + intros Hsorted. rewrite map_map. cbn [point_of Point.timestamp].
      apply sorted_map_seq. intros i j Hij Hj.
      rewrite <- !(map_nth timestamp).
      apply sorted_nth; [exact Hsorted |].
      rewrite length_map. split; [| apply (Hidx j); lia].
      fold (idx i) (idx j). subst idx. cbv beta. nia.
Qed.

Lemma window_single (events : list Event) (k : nat) (d : Event) :
  (k < List.length events)%nat ->
  firstn 1 (skipn k events) = [nth k events d].
Proof.
  revert k. induction events as [| e rest IH]; intros [| k] Hk;
    cbn in Hk; try lia; cbn [skipn nth firstn].
  - reflexivity.
  - apply IH. lia.
Qed.

Lemma map_seq_nth {A B : Type} (F : nat -> B) (G : A -> B) (d : A)
  (l : list A) (a : nat) :
  (forall k, (k < List.length l)%nat -> F (a + k)%nat = G (nth k l d)) ->
  map F (seq a (List.length l)) = map G l.
Proof.
  revert a. induction l as [| x rest IH]; intros a H; cbn [List.length seq map].
  - reflexivity.
  - f_equal.
    + specialize (H 0%nat ltac:(cbn; lia)). cbn [nth] in H.
      rewrite <- H. f_equal. lia.
    + apply IH. intros k Hk.
      replace (S a + k)%nat with (a + S k)%nat by lia.
      apply (H (S k)). cbn. lia.
Qed.

Lemma timeline_single_points (events : list Event) :
  events <> [] ->
  calculate_mood_timeline np_std events 1
  = Returns (map (fun e => point_of (timestamp e)
                             (analyze_session np_std [e])) events).
Proof.
  intros Hne.
  destruct (nth_error events 0) as [d |] eqn:Hd;
    [| apply nth_error_None in Hd; destruct events; [contradiction | cbn in Hd; lia]].
  assert (Hlen : 1 <= 1 <= len events).
  { assert (0 < List.length events)%nat
      by (apply nth_error_Some; congruence).
    unfold len. lia. }
  rewrite (timeline_points events 1 d Hlen).
  change (Z.max 1 (1 / 2)) with 1.
  rewrite Z.div_1_r.
  replace (Z.to_nat (len events - 1 + 1)) with (List.length events)
    by (unfold len; lia).
  f_equal. apply (map_seq_nth _ _ d). intros k Hk.
  cbn [Nat.add].
  replace (Z.to_nat (Z.of_nat k * 1 + 1 - 1)) with k by lia.
  replace (Z.to_nat (Z.of_nat k * 1)) with k by lia.
  change (Z.to_nat 1) with 1%nat.
  now rewrite (window_single events k d Hk).
Qed.

(** X16. With [window_size = 1] the stride is 1 (the [max(1, ...)]
    guard), and the timeline of a non-empty list has one point per event,
    in order: the timestamps of the points are the timestamps of the
    events, and the mood, energy score and wpm of each point are those of
    the analysis of its event alone. *)
Theorem timeline_single_event_windows (events : list Event) :
  events <> [] ->
  exists timeline,
    calculate_mood_timeline np_std events 1 = Returns timeline /\
    map Point.timestamp timeline = map timestamp events /\
    map Point.mood timeline
    = map (fun e => Analysis.mood (analyze_session np_std [e])) events /\
    map Point.energy_score timeline
    = map (fun e => Analysis.energy_score (analyze_session np_std [e]))
        events /\
    map Point.wpm timeline
    = map (fun e => Analysis.wpm (analyze_session np_std [e])) events.
Proof.
  intros Hne. eexists. split; [exact (timeline_single_points events Hne) |].
  rewrite !map_map.
  cbn [point_of Point.timestamp Point.mood Point.energy_score Point.wpm].
  repeat split.
Qed.

End TimelinePoints.

Lemma timeline_never_empty_witness :
  exists timeline,
    calculate_mood_timeline std9 (steady 50) default_window_size
    = Returns timeline /\
    1 <= len timeline <= Z.max 1 (len (steady 50)).
Proof.
  destruct (timeline_never_empty std9 (steady 50) default_window_size)
    as (timeline & Hrun & Hlen & _).
  - vm_compute. discriminate.
  - exists timeline. split; [exact Hrun | exact Hlen].
Defined.

Lemma timeline_timestamps_witness :
  exists timeline,
    calculate_mood_timeline std9 (steady 50) 20 = Returns timeline /\
    StronglySorted Qle (map Point.timestamp timeline).
Proof.
  destruct (timeline_timestamps std9 (steady 50) 20)
    as (timeline & Hrun & _ & Hsorted).
  - discriminate.
  - vm_compute. discriminate.
  - exists timeline. split; [exact Hrun |]. apply Hsorted.
    apply (sorted_map_seq (fun k => inject_Z (Z.of_nat k * 100)) 50 0).
    intros i j Hij _. rewrite <- Zle_Qle. nia.
Defined.

Lemma timeline_single_event_windows_witness :
  exists timeline,
    calculate_mood_timeline std9 (steady 3) 1 = Returns timeline /\
    map Point.timestamp timeline = map timestamp (steady 3).
Proof.
  destruct (timeline_single_event_windows std9 (steady 3))
    as (timeline & Hrun & Hts & _).
  - discriminate.
  - exists timeline. split; [exact Hrun | exact Hts].
Defined.

(** ** Subscripts of the activity matrix *)

Lemma py_index_wraps (n k : Z) :
  - n <= k < n -> py_index n k = Returns (Z.to_nat (k mod n)).
Proof.
  intros H. unfold py_index.
  destruct (Z.leb_spec 0 k), (Z.ltb_spec k n); cbn [andb]; try lia.
  - now rewrite Z.mod_small by lia.
  - destruct (Z.leb_spec (- n) k), (Z.ltb_spec k 0); cbn [andb]; try lia.
    replace (k mod n) with (k + n); [reflexivity |].
    symmetry. rewrite <- (Z.mod_add k 1 n) by lia.
    rewrite Z.mul_1_l. apply Z.mod_small. lia.
Qed.

Lemma py_index_raises (n k : Z) :
  0 <= n -> ~ (- n <= k < n) -> py_index n k = Raises IndexError.
Proof.
  intros Hn H. unfold py_index.
  destruct (Z.leb_spec 0 k), (Z.ltb_spec k n); cbn [andb]; try lia;
    destruct (Z.leb_spec (- n) k), (Z.ltb_spec k 0); cbn [andb]; try lia;
    reflexivity.
Qed.

Lemma wraps_to_iff (d h : nat) (s : HourlyStat.t) :
  wraps_to d h s = true <->
  d = Z.to_nat (HourlyStat.day_of_week s mod 7) /\
  h = Z.to_nat (HourlyStat.hour s mod 24).
Proof.
  unfold wraps_to. rewrite andb_true_iff, !Z.eqb_eq.
  pose proof (Z.mod_pos_bound (HourlyStat.day_of_week s) 7 ltac:(lia)).
  pose proof (Z.mod_pos_bound (HourlyStat.hour s) 24 ltac:(lia)).
  lia.
Qed.

(** One assignment, for any subscripts that Python accepts. *)
Lemma record_stat_wrapped (m : list (list Z)) (s : HourlyStat.t) :
  shaped m -> subscripts_ok s ->
  exists m',
    record_stat m s = Returns m' /\ shaped m' /\
    forall d h, (d < 7)%nat -> (h < 24)%nat ->
      cell m' d h
      = if wraps_to d h s then HourlyStat.keypress_count s else cell m d h.
Proof.
  intros Hm Hs. pose proof Hm as [Hlen Hrows]. pose proof Hs as [Hd Hh].
  unfold record_stat.
  assert (Hlm : len m = 7) by (unfold len; lia).
  rewrite Hlm, (py_index_wraps 7 _ Hd). cbn [bind].
  set (d0 := Z.to_nat (HourlyStat.day_of_week s mod 7)).
  pose proof (Z.mod_pos_bound (HourlyStat.day_of_week s) 7 ltac:(lia)) as Hdm.
  pose proof (Z.mod_pos_bound (HourlyStat.hour s) 24 ltac:(lia)) as Hhm.
  assert (Hd0 : (d0 < 7)%nat) by (subst d0; lia).
  pose proof (shaped_row m d0 Hm Hd0) as Hrow.
  assert (Hlr : len (nth d0 m []) = 24) by (unfold len; lia).
  rewrite Hlr, (py_index_wraps 24 _ Hh). cbn [bind].
  set (h0 := Z.to_nat (HourlyStat.hour s mod 24)).
  assert (Hh0 : (h0 < 24)%nat) by (subst h0; lia).
  eexists. split; [reflexivity |]. split.
  - split.
    + now rewrite length_set_nth.
    + apply Forall_set_nth; [assumption |]. now rewrite length_set_nth.
  - intros d h Hdlt Hhlt. unfold cell.
    destruct (wraps_to d h s) eqn:Hat.
    + apply wraps_to_iff in Hat. destruct Hat as [-> ->].
      fold d0 h0. rewrite nth_set_nth_eq by lia.
      apply nth_set_nth_eq. lia.
    + destruct (Nat.eq_dec d0 d) as [<- | Hne].
      * rewrite nth_set_nth_eq by lia.
        destruct (Nat.eq_dec h0 h) as [<- | Hne].
        -- assert (wraps_to d0 h0 s = true)
             by (apply wraps_to_iff; now split).
           congruence.
        -- now apply nth_set_nth_ne.
      * now rewrite nth_set_nth_ne.
Qed.

Lemma record_stat_raises (m : list (list Z)) (s : HourlyStat.t) :
  shaped m -> ~ subscripts_ok s -> record_stat m s = Raises IndexError.
Proof.
  intros Hm Hs. pose proof Hm as [Hlen Hrows].
  unfold record_stat.
  assert (Hlm : len m = 7) by (unfold len; lia).
  rewrite Hlm.
  assert (Hcases : ~ (-7 <= HourlyStat.day_of_week s < 7)
                   \/ (-7 <= HourlyStat.day_of_week s < 7
                       /\ ~ (-24 <= HourlyStat.hour s < 24)))
    by (unfold subscripts_ok in Hs; lia).
  destruct Hcases as [Hd | [Hd Hh]].
  - now rewrite (py_index_raises 7 _ ltac:(lia) Hd).
  - rewrite (py_index_wraps 7 _ Hd). cbn [bind].
    pose proof (Z.mod_pos_bound (HourlyStat.day_of_week s) 7 ltac:(lia)) as Hdm.
    assert (Hlr : len (nth (Z.to_nat (HourlyStat.day_of_week s mod 7)) m [])
                  = 24).
    { unfold len. rewrite (shaped_row m _ Hm); lia. }
    now rewrite Hlr, (py_index_raises 24 _ ltac:(lia) Hh).
Qed.

Lemma fill_matrix_wrapped (hourly_stats : list HourlyStat.t)
  (m : list (list Z)) :
  shaped m -> Forall subscripts_ok hourly_stats ->
  exists m',
    fill_matrix m hourly_stats = Returns m' /\ shaped m' /\
    forall d h, (d < 7)%nat -> (h < 24)%nat ->
      cell m' d h
      = match find (wraps_to d h) (rev hourly_stats) with
        | Some s => HourlyStat.keypress_count s
        | None => cell m d h
        end.
Proof.
  intros Hm Hall. revert m Hm.
  induction Hall as [| s rest Hs _ IH]; intros m Hm.
  - exists m. split; [reflexivity |]. split; [assumption |].
    intros d h _ _. reflexivity.
  - destruct (record_stat_wrapped m s Hm Hs) as (m1 & Hrec & Hm1 & Hcell1).
    destruct (IH m1 Hm1) as (m' & Hfill & Hm' & Hcell).
    exists m'. cbn [fill_matrix]. rewrite Hrec. cbn [bind].
    split; [assumption |]. split; [assumption |].
    intros d h Hd Hh. rewrite (Hcell d h Hd Hh).
    cbn [rev]. rewrite find_append.
    destruct (find (wraps_to d h) (rev rest)); [reflexivity |].
    cbn [find]. rewrite (Hcell1 d h Hd Hh).
    destruct (wraps_to d h s); reflexivity.
Qed.

Lemma fill_matrix_raises (hourly_stats : list HourlyStat.t)
  (m : list (list Z)) :
  shaped m -> ~ Forall subscripts_ok hourly_stats ->
  fill_matrix m hourly_stats = Raises IndexError.
Proof.
  revert m. induction hourly_stats as [| s rest IH]; intros m Hm Hbad.
  - exfalso. apply Hbad. constructor.
  - cbn [fill_matrix].
    assert (Hdec : subscripts_ok s \/ ~ subscripts_ok s)
      by (unfold subscripts_ok; lia).
    destruct Hdec as [Hs | Hs].
    + destruct (record_stat_wrapped m s Hm Hs) as (m1 & Hrec & Hm1 & _).
      rewrite Hrec. cbn [bind]. apply IH; [assumption |].
      intros Hrest. apply Hbad. now constructor.
    + now rewrite (record_stat_raises m s Hm Hs).
Qed.

(** X17. On a non-empty list, [get_weekly_rhythm] returns exactly when
    every record's [day_of_week] is within -7..6 and its [hour] within
    -24..23, and then the activity matrix has 7 rows of 24 cells; on any
    other list it raises [IndexError]. *)
Theorem weekly_rhythm_subscripts (hourly_stats : list HourlyStat.t) :
  hourly_stats <> [] ->
  (Forall subscripts_ok hourly_stats ->
   exists r, get_weekly_rhythm hourly_stats = Returns r /\
             shaped (Rhythm.activity_matrix r)) /\
  (~ Forall subscripts_ok hourly_stats ->
   get_weekly_rhythm hourly_stats = Raises IndexError).
Proof.
  intros Hne. unfold get_weekly_rhythm.
  destruct hourly_stats as [| s rest]; [contradiction |].
  split.
  - intros Hok.
    destruct (fill_matrix_wrapped (s :: rest) empty_matrix
                empty_matrix_shaped Hok) as (m & Hfill & Hm & _).
    rewrite Hfill. cbn [bind]. eexists. split; [reflexivity |]. exact Hm.
  - intros Hbad.
    now rewrite (fill_matrix_raises (s :: rest) empty_matrix
                   empty_matrix_shaped Hbad).
Qed.

Lemma weekly_rhythm_subscripts_witness :
  (exists r, get_weekly_rhythm [stat (-1) 23 4; stat 6 (-24) 9] = Returns r) /\
  get_weekly_rhythm [stat 1 9 120; stat 7 0 3] = Raises IndexError.
Proof.
  split.
  - destruct (proj1 (weekly_rhythm_subscripts [stat (-1) 23 4; stat 6 (-24) 9]
                       ltac:(discriminate)))
      as (r & Hr & _).
    + repeat constructor; vm_compute; discriminate.
    + exists r. exact Hr.
  - apply (proj2 (weekly_rhythm_subscripts [stat 1 9 120; stat 7 0 3]
                    ltac:(discriminate))).
    intros H. inversion H as [| ? ? _ Hrest]. inversion Hrest as [| ? ? Hbad _].
    destruct Hbad as [[_ Hd] _]. vm_compute in Hd. discriminate.
Defined.

(** X18. Negative subscripts wrap: a record's count is written to the
    cell for [day_of_week mod 7] and [hour mod 24], so that, for instance,
    day -1 is Saturday's row; each cell holds the count of the last record
    that resolves to it, or 0. *)
Theorem weekly_matrix_negative_subscripts (hourly_stats : list HourlyStat.t) :
  hourly_stats <> [] -> Forall subscripts_ok hourly_stats ->
  exists r,
    get_weekly_rhythm hourly_stats = Returns r /\
    forall d h, (d < 7)%nat -> (h < 24)%nat ->
      cell (Rhythm.activity_matrix r) d h
      = match find (wraps_to d h) (rev hourly_stats) with
        | Some s => HourlyStat.keypress_count s
        | None => 0
        end.
Proof.
  intros Hne Hok.
  destruct (fill_matrix_wrapped hourly_stats empty_matrix
              empty_matrix_shaped Hok) as (m & Hfill & _ & Hcell).
  unfold get_weekly_rhythm.
  destruct hourly_stats as [| s rest]; [contradiction |].
  rewrite Hfill. cbn [bind]. eexists. split; [reflexivity |].
  cbn [Rhythm.activity_matrix]. intros d h Hd Hh.
  rewrite (Hcell d h Hd Hh).
  destruct (find (wraps_to d h) (rev (s :: rest))); [reflexivity |].
  now apply empty_matrix_cell.
Qed.

Lemma weekly_matrix_negative_subscripts_witness :
  exists r,
    get_weekly_rhythm [stat 6 23 4; stat (-1) (-1) 9] = Returns r /\
    cell (Rhythm.activity_matrix r) 6 23 = 9.
Proof.
  destruct (weekly_matrix_negative_subscripts [stat 6 23 4; stat (-1) (-1) 9])
    as (r & Hr & Hcell).
  - discriminate.
  - repeat constructor; vm_compute; discriminate.
  - exists r. split; [exact Hr |]. apply (Hcell 6%nat 23%nat); lia.
Defined.

(** ** The peak of the activity matrix *)

Lemma fold_left_map {A B C : Type} (f : C -> B -> C) (g : A -> B)
  (l : list A) (c : C) :
  fold_left f (map g l) c = fold_left (fun c x => f c (g x)) l c.
Proof.
  revert c. induction l as [| x rest IH]; intros c; cbn [map fold_left].
  - reflexivity.
  - apply IH.
Qed.

Lemma fold_left_list_prod {A B C : Type} (f : C -> A * B -> C)
  (l1 : list A) (l2 : list B) (c : C) :
  fold_left f (list_prod l1 l2) c
  = fold_left (fun c x => fold_left (fun c y => f c (x, y)) l2 c) l1 c.
Proof.
  revert c. induction l1 as [| x rest IH]; intros c; cbn [list_prod fold_left].
  - reflexivity.
  - now rewrite fold_left_app, fold_left_map, IH.
Qed.

Lemma find_peak_scan (m : list (list Z)) :
  find_peak m = fold_left (visit m) scan_order no_peak.
Proof.
  unfold scan_order. rewrite fold_left_list_prod. reflexivity.
Qed.

(** What the peak search has found after visiting the cells [ps]. *)
Lemma scan_found (m : list (list Z)) (ps : list (nat * nat)) :
  let p := fold_left (visit m) ps no_peak in
  (max_activity p = 0 /\ peak_hour p = 0 /\ peak_day p = 0 /\
   forall q, In q ps -> cell m (fst q) (snd q) <= 0)
  \/
  (exists before q after,
     ps = before ++ q :: after /\
     peak_day p = Z.of_nat (fst q) /\ peak_hour p = Z.of_nat (snd q) /\
     max_activity p = cell m (fst q) (snd q) /\
     0 < cell m (fst q) (snd q) /\
     (forall q', In q' before ->
                 cell m (fst q') (snd q') < cell m (fst q) (snd q)) /\
     (forall q', In q' after ->
                 cell m (fst q') (snd q') <= cell m (fst q) (snd q))).
Proof.
  induction ps as [| x ps IH] using rev_ind; cbv zeta.
  - left. cbn. repeat split. intros q [].
  - rewrite fold_left_app. cbn [fold_left].
    set (p := fold_left (visit m) ps no_peak) in *. cbv zeta in IH.
    unfold visit, peak_visit.
    destruct (Z.ltb_spec (max_activity p) (cell m (fst x) (snd x)))
      as [Hlt | Hge].
    + right. exists ps, x, []. cbn [max_activity peak_hour peak_day].
      split; [reflexivity |]. split; [reflexivity |].
      split; [reflexivity |]. split; [reflexivity |].
      destruct IH as [(H0 & _ & _ & Hall)
                     | (before & q & after & -> & _ & _ & Hmax & Hpos & Hb & Ha)].
      * split; [lia |]. split; [| intros q' []].
        intros q' Hq'. specialize (Hall q' Hq'). lia.
      * split; [lia |]. split; [| intros q' []].
        intros q' Hq'. apply in_app_or in Hq'.
        destruct Hq' as [Hq' | [<- | Hq']].
        -- specialize (Hb q' Hq'). lia.
        -- lia.
        -- specialize (Ha q' Hq'). lia.
    + destruct IH as [(H0 & Hh & Hd & Hall)
                     | (before & q & after & -> & Hd & Hh & Hmax & Hpos & Hb & Ha)].
      * left. repeat split; try assumption.
        intros q' Hq'. apply in_app_or in Hq'.
        destruct Hq' as [Hq' | [<- | []]]; [now apply Hall | lia].
      * right. exists before, q, (after ++ [x]).
        rewrite <- app_assoc. cbn [app].
        repeat split; try assumption.
        intros q' Hq'. apply in_app_or in Hq'.
        destruct Hq' as [Hq' | [<- | []]]; [now apply Ha | lia].
Qed.

Lemma weekly_rhythm_fields (hourly_stats : list HourlyStat.t) (r : Rhythm.t) :
  hourly_stats <> [] ->
  get_weekly_rhythm hourly_stats = Returns r ->
  fill_matrix empty_matrix hourly_stats = Returns (Rhythm.activity_matrix r) /\
  Rhythm.peak_day r
  = Some (peak_day (find_peak (Rhythm.activity_matrix r))) /\
  Rhythm.peak_hour r
  = Some (peak_hour (find_peak (Rhythm.activity_matrix r))).
Proof.
  intros Hne Hr.
  destruct hourly_stats as [| s rest]; [contradiction |].
  destruct (fill_matrix empty_matrix (s :: rest)) as [m | e] eqn:Hfill;
    unfold get_weekly_rhythm in Hr; rewrite Hfill in Hr; cbn [bind] in Hr;
    [| discriminate].
  pose proof (f_equal (fun o => match o with
                                | Returns x => Rhythm.activity_matrix x
                                | Raises _ => []
                                end) Hr) as Hm.
  pose proof (f_equal (fun o => match o with
                                | Returns x => Rhythm.peak_day x
                                | Raises _ => None
                                end) Hr) as Hd.
  pose proof (f_equal (fun o => match o with
                                | Returns x => Rhythm.peak_hour x
                                | Raises _ => None
                                end) Hr) as Hh.
  cbv beta iota zeta in Hm, Hd, Hh.
  cbn [Rhythm.activity_matrix] in Hm.
  cbn [Rhythm.peak_day] in Hd. cbn [Rhythm.peak_hour] in Hh.
  rewrite <- Hm, <- Hd, <- Hh.
  split; [reflexivity |]. split; reflexivity.
Qed.

(** X19. The peak that [get_weekly_rhythm] reports on a non-empty list is
    the first cell, in day-by-day and hour-by-hour order, that holds the
    largest count: every cell before it holds strictly less and no cell
    after it holds more. When no cell holds a positive count the peak is
    day 0, hour 0. *)
Theorem weekly_peak_first_maximum (hourly_stats : list HourlyStat.t)
  (r : Rhythm.t) :
  hourly_stats <> [] ->
  get_weekly_rhythm hourly_stats = Returns r ->
  let m := Rhythm.activity_matrix r in
  (Rhythm.peak_day r = Some 0 /\ Rhythm.peak_hour r = Some 0 /\
   forall q, In q scan_order -> cell m (fst q) (snd q) <= 0)
  \/
  (exists before q after,
     scan_order = before ++ q :: after /\
     Rhythm.peak_day r = Some (Z.of_nat (fst q)) /\
     Rhythm.peak_hour r = Some (Z.of_nat (snd q)) /\
     0 < cell m (fst q) (snd q) /\
     (forall q', In q' before ->
                 cell m (fst q') (snd q') < cell m (fst q) (snd q)) /\
     (forall q', In q' after ->
                 cell m (fst q') (snd q') <= cell m (fst q) (snd q))).
Proof.
  intros Hne Hr m.
  destruct (weekly_rhythm_fields hourly_stats r Hne Hr) as (_ & Hd & Hh).
  fold m in Hd, Hh. rewrite Hd, Hh, find_peak_scan.
  destruct (scan_found m scan_order)
    as [(_ & Hh0 & Hd0 & Hall)
       | (before & q & after & Hsplit & Hdq & Hhq & _ & Hpos & Hb & Ha)].
  - left. rewrite Hh0, Hd0. repeat split. exact Hall.
  - right. exists before, q, after. rewrite Hdq, Hhq.
    repeat split; assumption.
Qed.

Lemma weekly_peak_first_maximum_witness :
  exists r,
    get_weekly_rhythm [stat 3 14 80; stat 1 9 80; stat 5 2 7] = Returns r /\
    Rhythm.peak_day r = Some 1 /\ Rhythm.peak_hour r = Some 9.
Proof.
  destruct (get_weekly_rhythm [stat 3 14 80; stat 1 9 80; stat 5 2 7])
    as [r | e] eqn:Hr; [| vm_compute in Hr; discriminate].
  exists r. split; [reflexivity |].
  destruct (weekly_peak_first_maximum
              [stat 3 14 80; stat 1 9 80; stat 5 2 7] r
              ltac:(discriminate) Hr)
    as [(_ & _ & Hall) | (before & q & after & _ & _ & _ & _ & _ & _)].
  - exfalso. vm_compute in Hr. injection Hr as <-.
    specialize (Hall (1%nat, 9%nat)). vm_compute in Hall.
    apply Hall; [| reflexivity]. do 33 right. now left.
  - vm_compute in Hr. injection Hr as <-. split; reflexivity.
Defined.

(** ** The insights *)

Lemma fold_add_shift (l : list Z) (a : Z) : fold_left Z.add l a = a + Zsum l.
Proof.
  unfold Zsum. revert a.
  induction l as [| x rest IH]; intros a; cbn [fold_left]; [lia |].
  rewrite (IH (a + x)), (IH (0 + x)). lia.
Qed.

Lemma Zsum_cons (x : Z) (l : list Z) : Zsum (x :: l) = x + Zsum l.
Proof. unfold Zsum at 1. cbn [fold_left]. rewrite fold_add_shift. lia. Qed.

Lemma Zsum_bounds (l : list Z) :
  Forall (fun x => 0 <= x) l ->
  0 <= Zsum l /\ forall x, In x l -> x <= Zsum l.
Proof.
  induction 1 as [| y rest Hy _ [IH0 IH]].
  - split; [reflexivity | intros x []].
  - rewrite Zsum_cons. split; [lia |].
    intros x [<- | Hx]; [lia |]. specialize (IH x Hx). lia.
Qed.

Lemma Zsum_zero (l : list Z) : Forall (fun x => x = 0) l -> Zsum l = 0.
Proof.
  induction 1 as [| y rest Hy _ IH]; [reflexivity |].
  rewrite Zsum_cons. lia.
Qed.

Lemma fold_max_bounds (l : list Z) (a : Z) :
  In (fold_left Z.max l a) (a :: l) /\
  forall x, In x (a :: l) -> x <= fold_left Z.max l a.
Proof.
  revert a. induction l as [| y rest IH]; intros a; cbn [fold_left].
  - split; [now left |]. intros x [<- | []]. lia.
  - destruct (IH (Z.max a y)) as [Hin Hub]. split.
    + destruct Hin as [Heq | Hin].
      * destruct (Z.max_spec a y) as [[_ Hm] | [_ Hm]].
        -- right. left. rewrite <- Heq. exact (eq_sym Hm).
        -- left. rewrite <- Heq. exact (eq_sym Hm).
      * right. right. exact Hin.
    + pose proof (Hub (Z.max a y) (or_introl eq_refl)) as Hmax.
      intros x [Hx | [Hx | Hx]]; [lia | lia |].
      apply Hub. now right.
Qed.

Lemma Zlist_max_bounds (l : list Z) :
  l <> [] -> In (Zlist_max l) l /\ forall x, In x l -> x <= Zlist_max l.
Proof.
  destruct l as [| a rest]; [contradiction |]. intros _.
  exact (fold_max_bounds rest a).
Qed.

Lemma index_of_found (x : Z) (l : list Z) :
  In x l ->
  (index_of x l < List.length l)%nat /\ nth (index_of x l) l 0 = x.
Proof.
  induction l as [| y rest IH]; intros Hin; [contradiction |].
  cbn [index_of]. destruct (Z.eqb_spec y x) as [-> | Hne].
  - cbn. split; [lia | reflexivity].
  - destruct Hin as [Heq | Hin]; [contradiction |].
    destruct (IH Hin) as [Hlt Hnth]. cbn [List.length nth].
    split; [lia | exact Hnth].
Qed.

Lemma any_true (l : list Z) (x : Z) : In x l -> x <> 0 -> any l = true.
Proof.
  intros Hin Hx. unfold any. apply existsb_exists. exists x.
  split; [exact Hin |]. now apply negb_true_iff, Z.eqb_neq.
Qed.

Lemma any_false (l : list Z) : Forall (fun x => x = 0) l -> any l = false.
Proof.
  unfold any. induction 1 as [| y rest Hy _ IH]; [reflexivity |].
  cbn [existsb]. rewrite IH, Hy. reflexivity.
Qed.

Lemma in_scan_order (q : nat * nat) :
  In q scan_order <-> (fst q < 7)%nat /\ (snd q < 24)%nat.
Proof.
  destruct q as [d h]. unfold scan_order.
  rewrite in_prod_iff, !in_seq. cbn [fst snd]. lia.
Qed.

(** The insights, in terms of the matrix that was built. *)
Lemma weekly_rhythm_insights (hourly_stats : list HourlyStat.t) (r : Rhythm.t) :
  hourly_stats <> [] ->
  get_weekly_rhythm hourly_stats = Returns r ->
  Rhythm.insights r
  = if any (map Zsum (Rhythm.activity_matrix r))
    then (if 0 <? max_activity (find_peak (Rhythm.activity_matrix r))
          then [ ("Peak activity: "
                  ++ nth (Z.to_nat (peak_day (find_peak (Rhythm.activity_matrix r))))
                       day_names ""
                  ++ " at "
                  ++ str (peak_hour (find_peak (Rhythm.activity_matrix r)))
                  ++ ":00")%string ]
          else [])
         ++ [ ("Most active day: "
               ++ nth (index_of
                         (Zlist_max (map Zsum (Rhythm.activity_matrix r)))
                         (map Zsum (Rhythm.activity_matrix r)))
                    day_names "")%string ]
    else (if 0 <? max_activity (find_peak (Rhythm.activity_matrix r))
          then [ ("Peak activity: "
                  ++ nth (Z.to_nat (peak_day (find_peak (Rhythm.activity_matrix r))))
                       day_names ""
                  ++ " at "
                  ++ str (peak_hour (find_peak (Rhythm.activity_matrix r)))
                  ++ ":00")%string ]
          else []).
Proof.
  intros Hne Hr.
  destruct hourly_stats as [| s rest]; [contradiction |].
  destruct (fill_matrix empty_matrix (s :: rest)) as [m | e] eqn:Hfill;
    unfold get_weekly_rhythm in Hr; rewrite Hfill in Hr; cbn [bind] in Hr;
    [| discriminate].
  pose proof (f_equal (fun o => match o with
                                | Returns x => Rhythm.activity_matrix x
                                | Raises _ => []
                                end) Hr) as Hm.
  pose proof (f_equal (fun o => match o with
                                | Returns x => Rhythm.insights x
                                | Raises _ => []
                                end) Hr) as Hi.
  cbv beta iota zeta in Hm, Hi.
  cbn [Rhythm.activity_matrix] in Hm. cbn [Rhythm.insights] in Hi.
  rewrite <- Hm, <- Hi. reflexivity.
Qed.

Lemma weekly_rhythm_returns (hourly_stats : list HourlyStat.t)
  (m : list (list Z)) :
  hourly_stats <> [] ->
  fill_matrix empty_matrix hourly_stats = Returns m ->
  exists r, get_weekly_rhythm hourly_stats = Returns r.
Proof.
  intros Hne Hfill. unfold get_weekly_rhythm.
  destruct hourly_stats as [| s rest]; [contradiction |].
  rewrite Hfill. cbn [bind]. eexists. reflexivity.
Qed.

Lemma row_elements (m : list (list Z)) (d : nat) (P : Z -> Prop) :
  shaped m -> (d < 7)%nat ->
  (forall h, (h < 24)%nat -> P (cell m d h)) ->
  Forall P (nth d m []).
Proof.
  intros Hm Hd Hcells. apply Forall_forall. intros x Hx.
  destruct (In_nth _ _ 0 Hx) as (h & Hh & <-).
  rewrite (shaped_row m d Hm Hd) in Hh. now apply Hcells.
Qed.

(** X20. When every record's subscripts are accepted and no count is
    negative, [get_weekly_rhythm] gives either no insight or exactly two.
    It gives none when every cell of the matrix is 0. Otherwise the first
    names the peak cell, as ["Peak activity: <day name> at <hour>:00"],
    and the second names a day whose total over its 24 hours is the
    largest, as ["Most active day: <day name>"]. *)
Theorem weekly_insights_none_or_two (hourly_stats : list HourlyStat.t) :
  hourly_stats <> [] ->
  Forall subscripts_ok hourly_stats ->
  Forall (fun s => 0 <= HourlyStat.keypress_count s) hourly_stats ->
  exists r,
    get_weekly_rhythm hourly_stats = Returns r /\
    let m := Rhythm.activity_matrix r in
    ((forall d h, (d < 7)%nat -> (h < 24)%nat -> cell m d h = 0) /\
     Rhythm.insights r = [])
    \/
    (exists d h most,
       (d < 7)%nat /\ (h < 24)%nat /\ (most < 7)%nat /\
       0 < cell m d h /\
       Rhythm.peak_day r = Some (Z.of_nat d) /\
       Rhythm.peak_hour r = Some (Z.of_nat h) /\
       (forall d', (d' < 7)%nat ->
                   Zsum (nth d' m []) <= Zsum (nth most m [])) /\
       Rhythm.insights r
       = [ ("Peak activity: " ++ nth d day_names "" ++ " at "
            ++ str (Z.of_nat h) ++ ":00")%string;
           ("Most active day: " ++ nth most day_names "")%string ]).
Proof.
  intros Hne Hok Hnonneg.
  destruct (fill_matrix_wrapped hourly_stats empty_matrix
              empty_matrix_shaped Hok) as (m0 & Hfill & Hm0 & Hcell0).
  destruct (weekly_rhythm_returns hourly_stats m0 Hne Hfill) as (r & Hr).
  exists r. split; [exact Hr |]. intros m.
  destruct (weekly_rhythm_fields hourly_stats r Hne Hr) as (Hfill' & Hd & Hh).
  fold m in Hfill', Hd, Hh.
  assert (Heq : m0 = m) by congruence. subst m0.
  pose proof (weekly_rhythm_insights hourly_stats r Hne Hr) as Hins.
  fold m in Hins. pose proof Hm0 as [Hlen _].
  assert (Hcellnn : forall d h, (d < 7)%nat -> (h < 24)%nat -> 0 <= cell m d h).
  { intros d h Hdlt Hhlt. rewrite (Hcell0 d h Hdlt Hhlt).
    destruct (find (wraps_to d h) (rev hourly_stats)) as [s |] eqn:Hfind.
    - apply find_some in Hfind. destruct Hfind as [Hin _].
      apply in_rev in Hin. rewrite Forall_forall in Hnonneg.
      now apply Hnonneg.
    - rewrite empty_matrix_cell by assumption. reflexivity. }
  assert (Htotal : forall d, (d < 7)%nat ->
             nth d (map Zsum m) 0 = Zsum (nth d m [])).
  { intros d _. exact (map_nth Zsum m [] d). }
  rewrite find_peak_scan in Hd, Hh, Hins.
  destruct (scan_found m scan_order)
    as [(Hmax & _ & _ & Hall)
       | (before & q & after & Hsplit & Hdq & Hhq & Hmax & Hpos & _ & _)].
  - left.
    assert (Hzero : forall d h, (d < 7)%nat -> (h < 24)%nat -> cell m d h = 0).
    { intros d h Hdlt Hhlt.
      specialize (Hall (d, h) (proj2 (in_scan_order (d, h)) (conj Hdlt Hhlt))).
      specialize (Hcellnn d h Hdlt Hhlt). cbn [fst snd] in Hall. lia. }
    split; [exact Hzero |].
    rewrite Hins, Hmax. cbn [Z.ltb Z.compare].
    rewrite any_false; [reflexivity |].
    apply Forall_forall. intros x Hx. apply in_map_iff in Hx.
    destruct Hx as (row & <- & Hrow).
    destruct (In_nth _ _ [] Hrow) as (d & Hdlt & <-).
    apply Zsum_zero. apply row_elements; [assumption | lia |].
    intros h Hhlt. apply Hzero; [lia | assumption].
  - right.
    assert (Hq : In q scan_order) by (rewrite Hsplit; apply in_elt).
    apply in_scan_order in Hq. destruct Hq as [Hqd Hqh].
    set (totals := map Zsum m) in *.
    assert (Hlt : List.length totals = 7%nat)
      by (subst totals; now rewrite length_map).
    assert (Htne : totals <> []) by (intros H; rewrite H in Hlt; discriminate).
    destruct (Zlist_max_bounds totals Htne) as [Hin Hub].
    destruct (index_of_found _ _ Hin) as [Hmost Hnth].
    set (most := index_of (Zlist_max totals) totals) in *.
    exists (fst q), (snd q), most.
    split; [exact Hqd |]. split; [exact Hqh |]. split; [lia |].
    split; [exact Hpos |].
    split; [now rewrite Hd, Hdq |]. split; [now rewrite Hh, Hhq |].
    split.
    + intros d' Hd'. rewrite <- !Htotal by lia. rewrite Hnth.
      apply Hub, nth_In. lia.
    + rewrite Hins, Hmax, Hdq, Hhq, Nat2Z.id.
      destruct (Z.ltb_spec 0 (cell m (fst q) (snd q))); [| lia].
      rewrite (any_true totals (Zsum (nth (fst q) m []))).
      * reflexivity.
      * subst totals. apply in_map, nth_In. lia.
      * assert (Hrow : Forall (fun x => 0 <= x) (nth (fst q) m []))
          by (apply row_elements; auto).
        destruct (Zsum_bounds _ Hrow) as [_ Hge].
        specialize (Hge (cell m (fst q) (snd q))).
        assert (cell m (fst q) (snd q) <= Zsum (nth (fst q) m [])).
        { apply Hge. unfold cell. apply nth_In.
          rewrite (shaped_row m (fst q) Hm0 Hqd). exact Hqh. }
        lia.
Qed.

Lemma weekly_insights_none_or_two_witness :
  exists r,
    get_weekly_rhythm [stat 1 9 120; stat 2 8 70; stat 2 9 70] = Returns r /\
    List.length (Rhythm.insights r) <> 1%nat.
Proof.
  destruct (weekly_insights_none_or_two
              [stat 1 9 120; stat 2 8 70; stat 2 9 70])
    as (r & Hr & [(_ & Hnone) | (d & h & most & _ & _ & _ & _ & _ & _ & _ & Htwo)]).
  - discriminate.
  - repeat constructor; vm_compute; discriminate.
  - repeat constructor; vm_compute; discriminate.
  - exists r. split; [exact Hr |]. rewrite Hnone. discriminate.
  - exists r. split; [exact Hr |]. rewrite Htwo. discriminate.
Defined.

Example weekly_insights_text :
  match get_weekly_rhythm [stat 1 9 120; stat 2 8 70; stat 2 9 70] with
  | Returns r => Rhythm.insights r
  | Raises _ => []
  end
  = ["Peak activity: Monday at 9:00"; "Most active day: Tuesday"]%string.
Proof. vm_compute. reflexivity. Qed.

(** ** The indicators *)

Lemma round_half_even_bounds (y : Q) (K : Z) :
  (0 <= y)%Q -> (y <= inject_Z K)%Q -> 0 <= round_half_even y <= K.
Proof.
  intros H0 HK. unfold round_half_even.
  pose proof (Qfloor_le y) as Hfl. pose proof (Qlt_floor y) as Hlt.
  set (f := Qfloor y) in *.
  assert (Hf0 : 0 <= f).
  { assert (H : (inject_Z 0 < inject_Z (f + 1))%Q)
      by (change (inject_Z 0) with 0%Q; lra).
    rewrite <- Zlt_Qlt in H. lia. }
  assert (HfK : f <= K).
  { rewrite Zle_Qle. lra. }
  destruct (Qltb (y - inject_Z f) (1 # 2)) eqn:Hr; [lia |].
  apply Qltb_ge in Hr.
  assert (Hne : f < K).
  { destruct (Z.eq_dec f K) as [-> | Hne]; [lra | lia]. }
  destruct (Qltb (1 # 2) (y - inject_Z f)); [lia |].
  destruct (Z.even f); lia.
Qed.

Lemma py_round_unit (x : Q) (ndigits : nat) :
  (0 <= x <= 1)%Q -> (0 <= py_round x ndigits <= 1)%Q.
Proof.
  intros [H0 H1]. unfold py_round.
  set (k := 10 ^ Z.of_nat ndigits).
  assert (Hk : 0 < k) by (subst k; apply Z.pow_pos_nonneg; lia).
  assert (Hkq : (0 < inject_Z k)%Q).
  { change 0%Q with (inject_Z 0). now rewrite <- Zlt_Qlt. }
  destruct (round_half_even_bounds (x * inject_Z k) k) as [Hlo Hhi].
  - apply Qmult_le_0_compat; lra.
  - rewrite <- (Qmult_1_l (inject_Z k)) at 2.
    apply Qmult_le_compat_r; lra.
  - rewrite Zle_Qle in Hlo, Hhi. change (inject_Z 0) with 0%Q in Hlo.
    split.
    + apply Qle_shift_div_l; [exact Hkq | lra].
    + apply Qle_shift_div_r; [exact Hkq | lra].
Qed.

Lemma count_le_len {A : Type} (p : A -> bool) (l : list A) : count p l <= len l.
Proof.
  unfold count, len. pose proof (filter_length_le p l). lia.
Qed.

Lemma ratio_unit (a b : Z) :
  0 <= a <= b -> 0 < b -> (0 <= inject_Z a / inject_Z b <= 1)%Q.
Proof.
  intros [Ha Hab] Hb.
  assert (Hbq : (0 < inject_Z b)%Q).
  { change 0%Q with (inject_Z 0). now rewrite <- Zlt_Qlt. }
  split.
  - apply ratio_nonneg; lia.
  - apply Qle_shift_div_r; [exact Hbq |].
    rewrite Qmult_1_l, <- Zle_Qle. exact Hab.
Qed.

Lemma std9_nonneg (l : list Q) : (0 <= std9 l)%Q.
Proof.
  unfold std9. apply Qle_shift_div_l.
  - reflexivity.
  - rewrite Qmult_0_l. change 0%Q with (inject_Z 0).
    rewrite <- Zle_Qle. apply Z.sqrt_nonneg.
Qed.

(** X21. Past the gate, [detect_mood] reports exactly the five indicators
    [avg_interval], [rhythm_consistency], [burst_ratio], [pause_ratio] and
    [wpm], in this order. The two ratios lie between 0 and 1, and so does
    the rhythm consistency as long as the standard deviation is not
    negative. *)
Theorem detect_mood_indicators (np_std : list Q -> Q) (events : list Event)
  (wpm : option Q) :
  sufficient events ->
  let indicators := MoodResult.indicators (detect_mood np_std events wpm) in
  map fst indicators
  = ["avg_interval"; "rhythm_consistency"; "burst_ratio"; "pause_ratio";
     "wpm"]%string /\
  (exists b, dict_get "burst_ratio" indicators = Some b /\ (0 <= b <= 1)%Q) /\
  (exists p, dict_get "pause_ratio" indicators = Some p /\ (0 <= p <= 1)%Q) /\
  ((forall l, (0 <= np_std l)%Q) ->
   exists c, dict_get "rhythm_consistency" indicators = Some c /\
             (0 <= c <= 1)%Q).
Proof.
  intros [Hlen Hint] indicators. subst indicators. unfold detect_mood.
  destruct events as [| e rest]; [unfold len in Hlen; simpl in Hlen; lia |].
  set (events := e :: rest) in *.
  destruct (Z.ltb_spec (len events) 10) as [| _]; [lia |].
  destruct (Z.ltb_spec (len (defined_intervals events)) 5) as [| _]; [lia |].
  cbv zeta.
  match goal with
  | |- context [let '(_, _) := ?c in _] => destruct c
  end.
  cbn [MoodResult.indicators map fst].
  split; [reflexivity |].
  split; [| split].
  - eexists. split; [reflexivity |]. apply py_round_unit, ratio_unit; [| lia].
    split; [apply count_nonneg | apply count_le_len].
  - eexists. split; [reflexivity |]. apply py_round_unit, ratio_unit; [| lia].
    split; [apply count_nonneg | apply count_le_len].
  - intros Hstd. eexists. split; [reflexivity |]. apply py_round_unit.
    set (avg := np_mean (defined_intervals events)).
    set (c := if Qltb 0 avg
              then (np_std (defined_intervals events) / avg)%Q else 0%Q).
    assert (Hc : (0 <= c)%Q).
    { subst c. destruct (Qltb 0 avg) eqn:Havg; [| lra].
      apply Qltb_lt in Havg. apply Qle_shift_div_l; [exact Havg |].
      rewrite Qmult_0_l. apply Hstd. }
    pose proof (py_min_le_r c 1). pose proof (py_min_glb c 1 0 Hc ltac:(lra)).
    lra.
Qed.

Lemma detect_mood_indicators_witness :
  exists c,
    dict_get "rhythm_consistency"
      (MoodResult.indicators (detect_mood std9 fifteen_pauses None)) = Some c /\
    (0 <= c <= 1)%Q.
Proof.
  apply (detect_mood_indicators std9 fifteen_pauses None).
  - split; vm_compute; discriminate.
  - exact std9_nonneg.
Defined.

(** ** From keypresses to analysis *)

(** X22. A run of keypress notifications appends exactly one event per
    notification, in order, each stamped with the clock reading of its
    call in milliseconds, and advances the counter by their number. *)
Theorem keypresses_recorded_once (self : TypingLogger.Logger)
  (presses : list Q) :
  let typed := TypingLogger.run self (map TypingLogger.CallPress presses) in
  map timestamp (TypingLogger.events typed)
  = map timestamp (TypingLogger.events self)
    ++ map (fun now => (now * 1000)%Q) presses /\
  TypingLogger.keypress_count typed
  = TypingLogger.keypress_count self + len presses.
Proof.
  unfold TypingLogger.run. revert self.
  induction presses as [| now rest IH]; intros self; cbn [map fold_left].
  - rewrite app_nil_r. unfold len. cbn [List.length]. split; [reflexivity | lia].
  - cbn [TypingLogger.step].
    destruct (on_press_fields self now)
      as (e & Hev & Hts & _ & _ & _ & Hc & _).
    destruct (IH (fst (TypingLogger._on_press self now))) as [Hmap Hcount].
    split.
    + rewrite Hmap, Hev, map_app, <- app_assoc. cbn [map app].
      now rewrite Hts.
    + rewrite Hcount, Hc. unfold len. cbn [List.length]. lia.
Qed.

Lemma analyze_session_detects (np_std : list Q -> Q) (events : list Event) :
  events <> [] ->
  exists w,
    Analysis.mood (analyze_session np_std events)
    = MoodResult.mood (detect_mood np_std events (Some w)) /\
    Analysis.mood_confidence (analyze_session np_std events)
    = Some (MoodResult.confidence (detect_mood np_std events (Some w))) /\
    Analysis.indicators (analyze_session np_std events)
    = MoodResult.indicators (detect_mood np_std events (Some w)).
Proof.
  intros Hne. unfold analyze_session.
  destruct events as [| first rest]; [contradiction |].
  destruct (2 <=? len (first :: rest)); eexists; repeat split.
Qed.

Lemma detect_mood_indicator_keys (np_std : list Q -> Q) (events : list Event)
  (wpm : option Q) :
  sufficient events ->
  map fst (MoodResult.indicators (detect_mood np_std events wpm))
  = ["avg_interval"; "rhythm_consistency"; "burst_ratio"; "pause_ratio";
     "wpm"]%string.
Proof.
  intros [Hlen Hint]. unfold detect_mood.
  destruct events as [| e rest]; [unfold len in Hlen; simpl in Hlen; lia |].
  destruct (Z.ltb_spec (len (e :: rest)) 10) as [| _]; [lia |].
  destruct (Z.ltb_spec (len (defined_intervals (e :: rest))) 5) as [| _];
    [lia |].
  cbv zeta.
  match goal with
  | |- context [let '(_, _) := ?c in _] => destruct c
  end.
  reflexivity.
Qed.

(** X23. The analysis of a live buffer of at least 10 events is never the
    insufficient-data default: [analyze_session] reports the five
    indicators and a mood confidence between 0.5 and 1. *)
Theorem live_buffer_analysed (np_std : list Q -> Q)
  (self : TypingLogger.Logger) :
  reachable self ->
  10 <= len (TypingLogger.get_events self) ->
  let analysis := analyze_session np_std (TypingLogger.get_events self) in
  map fst (Analysis.indicators analysis)
  = ["avg_interval"; "rhythm_consistency"; "burst_ratio"; "pause_ratio";
     "wpm"]%string /\
  exists c, Analysis.mood_confidence analysis = Some c /\
            (1 # 2 <= c <= 1)%Q.
Proof.
  intros Hreach H10. cbv zeta. unfold TypingLogger.get_events in *.
  destruct (reachable_consistent self Hreach) as [_ _ Hchain _ _ _].
  pose proof (chained_defined_intervals _ None Hchain) as Hlen.
  cbv beta iota in Hlen.
  assert (Hs : sufficient (TypingLogger.events self))
    by (split; [exact H10 | lia]).
  assert (Hne : TypingLogger.events self <> []).
  { intros H. rewrite H in H10. unfold len in H10. cbn in H10. lia. }
  destruct (analyze_session_detects np_std _ Hne) as (w & _ & Hconf & Hind).
  rewrite Hind, Hconf. split.
  - now apply detect_mood_indicator_keys.
  - eexists. split; [reflexivity |].
    destruct (detect_mood_sufficient np_std _ w Hs) as [_ Hc].
    rewrite Hc.
    destruct (first_match_confidence
                (metrics_of np_std (TypingLogger.events self) w)) as [Hhalf _].
    set (c := snd (first_match rules
                     (metrics_of np_std (TypingLogger.events self) w))) in *.
    pose proof (py_min_le_r c 1.0). split; [apply py_min_glb |]; lra.
Qed.

Lemma live_buffer_analysed_witness :
  exists c,
    Analysis.mood_confidence
      (analyze_session std9 (TypingLogger.get_events twelve_keypresses))
    = Some c /\ (1 # 2 <= c <= 1)%Q.
Proof.
  apply (live_buffer_analysed std9 twelve_keypresses).
  - eexists. eexists. reflexivity.
  - vm_compute. discriminate.
Defined.
